(** * pants.java.executor: launching java programs

    A shallow embedding of [src/python/pants/java/executor.py]: the
    [Executor] base class with its argument scrubbing, command assembly
    and classpath minimisation, and its two subclasses
    [CommandLineGrabber] and [SubprocessExecutor].

    Python values are dynamically typed, so the arguments callers pass
    are embedded as a small universe of values ([pyval]); exceptions are
    an explicit outcome; the file system, [os.environ], the log and the
    spawned processes live in a [World] threaded through a state and
    exception monad. *)

From Stdlib Require Import ZArith String Ascii List Bool.
From stdpp Require Import base gmap strings list fin_maps stringmap.
Import ListNotations.

Local Open Scope string_scope.
Local Open Scope list_scope.

(** ** Strings, as the Python string methods the module calls *)

Module PyStr.

(** [sep.join(parts)] *)
Definition join (sep : string) (parts : list string) : string :=
  String.concat sep parts.

(** [s.endswith(suffix)] *)
Definition endswith (s suffix : string) : bool :=
  let n := String.length s in
  let m := String.length suffix in
  (m <=? n)%nat && String.eqb (String.substring (n - m) m s) suffix.

(** [s.split(sep)] for a one-character separator.  Python keeps empty
    fields: [''.split(' ') == ['']] and ['a  b'.split(' ') ==
    ['a', '', 'b']]. *)
Fixpoint split (sep : ascii) (s : string) : list string :=
  match s with
  | EmptyString => [EmptyString]
  | String a rest =>
      if Ascii.eqb a sep then EmptyString :: split sep rest
      else match split sep rest with
           | [] => [String a EmptyString]
           | field :: fields => String a field :: fields
           end
  end.

(** [sep in s] for a one-character [sep] *)
Fixpoint contains (sep : ascii) (s : string) : bool :=
  match s with
  | EmptyString => false
  | String a rest => Ascii.eqb a sep || contains sep rest
  end.

(** [list(s)]: iterating a string yields its one-character strings *)
Fixpoint chars (s : string) : list string :=
  match s with
  | EmptyString => []
  | String a rest => String a EmptyString :: chars rest
  end.

Definition space : ascii := " "%char.

End PyStr.

(** ** Python values and exceptions *)

(** The values a caller can pass for [classpath], [main], [jvm_options]
    and [args]. *)
#[warnings="-register-all"]
Inductive pyval : Type :=
| PNone
| PBool (b : bool)
| PInt (z : Z)
| PStr (s : string)
| PList (items : list pyval)
| PTuple (items : list pyval).

(** Exceptions are told apart by their class; [Executor.Error] and
    [OSError] also carry their message, which [_spawn] builds and reads. *)
Inductive Exn : Type :=
| ValueError
| TypeError
| AttributeError
| OSError (description : string)
| ExecutorError (message : string).

Inductive Outcome (A : Type) : Type :=
| Return (a : A)
| Raise (e : Exn).

Arguments Return {A} a.
Arguments Raise {A} e.

#[global] Instance Outcome_ret : MRet Outcome := fun A a => Return a.

#[global] Instance Outcome_bind : MBind Outcome := fun A B k o =>
  match o with
  | Return a => k a
  | Raise e => Raise e
  end.

(** [bool(v)]: the truth value used by [if v] and [v or w] *)
Definition truthy (v : pyval) : bool :=
  match v with
  | PNone => false
  | PBool b => b
  | PInt z => negb (z =? 0)%Z
  | PStr s => negb (String.eqb s "")
  | PList items | PTuple items =>
      match items with [] => false | _ :: _ => true end
  end.

(** [isinstance(v, Compatibility.string)] *)
Definition is_string (v : pyval) : bool :=
  match v with PStr _ => true | _ => false end.

(** [x or y] *)
Definition py_or (x y : pyval) : pyval := if truthy x then x else y.

(** [iter(v)]: strings, lists and tuples are iterable, the rest raise
    [TypeError]. *)
Definition py_iter (v : pyval) : Outcome (list pyval) :=
  match v with
  | PStr s => Return (map PStr (PyStr.chars s))
  | PList items | PTuple items => Return items
  | PNone | PBool _ | PInt _ => Raise TypeError
  end.

(** The elements of a list all of whose elements are strings. *)
Fixpoint strings_of (items : list pyval) : option (list string) :=
  match items with
  | [] => Some []
  | PStr s :: rest =>
      match strings_of rest with
      | Some ss => Some (s :: ss)
      | None => None
      end
  | _ :: _ => None
  end.

(** [maybe_list(value)] of [twitter.common.collections], with its default
    [expected_type=Compatibility.string] and [raise_type=ValueError]; the
    library is imported by the module and is not part of the repository.
    A string becomes a one-element list; an iterable becomes the list of
    its elements when they are all strings and raises [ValueError]
    otherwise; a value that is neither raises [ValueError]. *)
Definition maybe_list (value : pyval) : Outcome (list string) :=
  match value with
  | PStr s => Return [s]
  | PList items | PTuple items =>
      match strings_of items with
      | Some ss => Return ss
      | None => Raise ValueError
      end
  | PNone | PBool _ | PInt _ => Raise ValueError
  end.

(** ['... given: %s' % main]: a tuple on the right of [%] is unpacked as
    the argument list, so only a one-element tuple fills the single [%s];
    any other tuple raises [TypeError]. *)
Definition format_given (main : pyval) : Outcome unit :=
  match main with
  | PTuple [_] => Return tt
  | PTuple _ => Raise TypeError
  | _ => Return tt
  end.

(** The text of a string value (only ever applied to strings). *)
Definition text (v : pyval) : string :=
  match v with PStr s => s | _ => EmptyString end.

(** ** Executor._scrub_args *)

Definition _scrub_args (classpath main jvm_options args : pyval)
  : Outcome (list string * string * list string * list string) :=
  classpath ← maybe_list classpath;
  if negb (is_string main) || negb (truthy main) then
    _ ← format_given main; Raise ValueError
  else
    jvm_options ← maybe_list (py_or jvm_options (PTuple []));
    args ← maybe_list (py_or args (PTuple []));
    Return (classpath, text main, jvm_options, args).

(** ** Jar manifests *)

(** Modelled from the spec: [pants.java.jar.Manifest] is not among the
    sources.  A manifest is the ordered list of its attributes, built by
    [addentry]; the header names are the three attributes the spec lists,
    and [PATH] is the fixed well-known entry name of a manifest in a jar. *)
Module Manifest.

Definition t : Type := list (string * string).

Definition PATH : string := "META-INF/MANIFEST.MF".
Definition MANIFEST_VERSION : string := "Manifest-Version".
Definition CREATED_BY : string := "Created-By".
Definition CLASS_PATH : string := "Class-Path".

Definition empty : t := [].

Definition addentry (m : t) (header value : string) : t := m ++ [(header, value)].

(** The value of the first attribute named [header]. *)
Fixpoint attribute (m : t) (header : string) : option string :=
  match m with
  | [] => None
  | (h, v) :: rest => if String.eqb h header then Some v else attribute rest header
  end.

End Manifest.

(** ** The world outside the interpreter *)

(** A file is either empty (as [tempfile] leaves it) or a jar, of which
    only the members written by this module matter. *)
Inductive File : Type :=
| Blank
| Jar (members : list (string * Manifest.t)).

Inductive LogLevel : Type := DEBUG | WARN.

(** The keyword arguments [subprocess.Popen] receives: the two streams
    [run] passes on, and [env], which [spawn] lets its caller set. *)
Record SubprocessArgs : Type := {
  stdout : option string;
  stderr : option string;
  env : option (gmap string string)
}.

(** A [subprocess.Popen] handle: the argument vector and the environment
    the child was started with. *)
Record Process : Type := {
  p_args : list string;
  p_environ : gmap string string
}.

(** What the module does to its surroundings, in order. *)
Inductive Event : Type :=
| MkTemp (path : string)
| WriteJar (path : string) (members : list (string * Manifest.t))
| Unlink (path : string)
| Log (level : LogLevel) (message : string)
| Spawned (p : Process)
| SpawnRefused (p : Process) (description : string)
| Waited (p : Process) (returncode : Z).

Record World : Type := {
  files : gmap string File;          (* the file system *)
  environ : gmap string string;      (* os.environ *)
  trace : list Event;                (* interactions so far, oldest first *)
  _command : option (list string)    (* CommandLineGrabber._command *)
}.

Definition set_files (fs : gmap string File) (w : World) : World :=
  {| files := fs; environ := environ w; trace := trace w; _command := _command w |}.

Definition set_environ (e : gmap string string) (w : World) : World :=
  {| files := files w; environ := e; trace := trace w; _command := _command w |}.

Definition emit (ev : Event) (w : World) : World :=
  {| files := files w; environ := environ w; trace := trace w ++ [ev];
     _command := _command w |}.

Definition set_command (c : option (list string)) (w : World) : World :=
  {| files := files w; environ := environ w; trace := trace w; _command := c |}.

(** The operating system, as far as the module depends on it. *)
Record OS : Type := {
  (* os.pathsep *)
  pathsep : string;
  (* the name tempfile.NamedTemporaryFile picks, given the files present *)
  mkstemp : gmap string File -> string;
  (* [Some d] when the system refuses to start the program, [d] being
     the text of the OSError *)
  refuses : Process -> gmap string File -> option string;
  (* the exit status of a child and the files it leaves behind *)
  child : Process -> gmap string File -> Z * gmap string File
}.

(** ** Computations: state and exceptions *)

Definition Py (A : Type) : Type := World -> Outcome A * World.

#[global] Instance Py_ret : MRet Py := fun A a w => (Return a, w).

#[global] Instance Py_bind : MBind Py := fun A B k m w =>
  match m w with
  | (Return a, w') => k a w'
  | (Raise e, w') => (Raise e, w')
  end.

Definition raise {A} (e : Exn) : Py A := fun w => (Raise e, w).

(** A pure computation that may raise, run inside [Py]. *)
Definition lift {A} (o : Outcome A) : Py A := fun w => (o, w).

Definition modify (f : World -> World) : Py unit := fun w => (Return tt, f w).

Definition gets {A} (f : World -> A) : Py A := fun w => (Return (f w), w).

(** [try: body  finally: cleanup] *)
Definition try_finally {A} (body : Py A) (cleanup : World -> World) : Py A :=
  fun w => let '(r, w') := body w in (r, cleanup w').

(** [try: body  except OSError as e: handler(e)] *)
Definition except_OSError {A} (body : Py A) (handler : string -> Py A) : Py A :=
  fun w =>
    match body w with
    | (Raise (OSError d), w') => handler d w'
    | other => other
    end.

(** ** Executors and runners *)

Inductive Class : Type := CommandLineGrabber | SubprocessExecutor.

(** An executor instance: its class, its java binary and, for a
    [SubprocessExecutor], its [_scrub_classpath] flag.
    Modelled from the spec: [pants.java.distribution.Distribution] is not
    among the sources; [java] stands for [self._distribution.java], the
    executable path of the validated runtime the executor holds. *)
Record Executor : Type := {
  class_ : Class;
  java : string;
  _scrub_classpath : bool
}.

Module Runner.
Record t : Type := {
  executor : Executor;
  cmd : Py string;
  run : option string -> option string -> Py Z
}.
End Runner.

(** What [contextlib.contextmanager] returns when the decorated function
    is called: an object that runs the generator up to its [yield] when a
    [with] statement enters it, hands the yielded value to the block, and
    resumes the generator when the block is left. *)
Record GeneratorContextManager (R : Type) : Type := {
  with_ : forall A : Type, (R -> Py A) -> Py A
}.

Arguments with_ {R} _ {A} _.

(** The objects [Executor.execute] can find itself holding. *)
Inductive PyObject : Type :=
| ObjRunner (r : Runner.t)
| ObjGeneratorContextManager (cm : GeneratorContextManager Runner.t).

(** [obj.run]: a runner has the method, a context manager object has only
    [__enter__], [__exit__] and [gen]. *)
Definition getattr_run (obj : PyObject) : Py (option string -> option string -> Py Z) :=
  match obj with
  | ObjRunner r => mret (Runner.run r)
  | ObjGeneratorContextManager _ => raise AttributeError
  end.

(** The loop of [_get_minimized_jar_classpath]: each path goes to the end
    of one of the two lists; a path without [endswith] stops it. *)
Fixpoint split_jars (paths : list pyval) (jar_classpath non_jar_classpath : list string)
  : Outcome (list string * list string) :=
  match paths with
  | [] => Return (jar_classpath, non_jar_classpath)
  | PStr path :: rest =>
      if PyStr.endswith path ".jar"
      then split_jars rest (jar_classpath ++ [path]) non_jar_classpath
      else split_jars rest jar_classpath (non_jar_classpath ++ [path])
  | _ :: _ => Raise AttributeError
  end.

Definition log (level : LogLevel) (message : string) : Py unit :=
  modify (emit (Log level message)).

(** [jar.writestr(name, contents)] on the members of a jar being written *)
Definition writestr (jar : list (string * Manifest.t)) (name : string)
    (contents : Manifest.t) : list (string * Manifest.t) :=
  jar ++ [(name, contents)].

(** Modelled from the spec: [pants.java.jar.open_jar] is not among the
    sources.  [with open_jar(path, 'w') as jar: block] opens the archive at
    [path] for writing, lets the block write members, and returns once
    the archive is flushed and closed. *)
Definition open_jar (path : string)
    (block : list (string * Manifest.t) -> list (string * Manifest.t)) : Py unit :=
  modify (fun w =>
    let members := block [] in
    emit (WriteJar path members) (set_files (<[path := Jar members]> (files w)) w)).

(** [os.environ[key] = val], or [del os.environ[key]] for [None]
    (the [setenv] helper of [environment_as]) *)
Definition setenv (key : string) (val : option string)
    (e : gmap string string) : gmap string string :=
  match val with
  | Some v => <[key := v]> e
  | None => delete key e
  end.

(** [with environment_as(key=val): block] of
    [twitter.common.contextutil]: remembers the old value of the
    variable, sets or deletes it, and puts the old value back in a
    [finally]. *)
Definition environment_as {A} (key : string) (val : option string) (block : Py A) : Py A :=
  old ← gets (fun w => environ w !! key);
  modify (fun w => set_environ (setenv key val (environ w)) w);;
  try_finally block (fun w => set_environ (setenv key old (environ w)) w).

Section Executor.

Context (os : OS).

(** [with temporary_file_path() as path: block] of
    [twitter.common.contextutil]: creates and closes a fresh temporary
    file, and deletes it in a [finally]. *)
Definition temporary_file_path {A} (block : string -> Py A) : Py A :=
  path ← gets (fun w => mkstemp os (files w));
  modify (fun w => emit (MkTemp path) (set_files (<[path := Blank]> (files w)) w));;
  try_finally (block path)
    (fun w => emit (Unlink path) (set_files (delete path (files w)) w)).

(** [subprocess.Popen(cmd, **subprocess_args)]: the child inherits
    [os.environ] unless [env] is given. *)
Definition Popen (cmd : list string) (subprocess_args : SubprocessArgs) : Py Process :=
  fun w =>
    let p := {| p_args := cmd;
                p_environ := default (environ w) (env subprocess_args) |} in
    match refuses os p (files w) with
    | Some d => (Raise (OSError d), emit (SpawnRefused p d) w)
    | None => (Return p, emit (Spawned p) w)
    end.

(** [process.wait()] *)
Definition wait (p : Process) : Py Z :=
  fun w =>
    let '(returncode, fs) := child os p (files w) in
    (Return returncode, emit (Waited p returncode) (set_files fs w)).

Definition _create_command (self : Executor) (classpath : list string) (main : string)
    (jvm_options args : list string) : list string :=
  let cmd := [java self] in
  let cmd := cmd ++ jvm_options in
  let cmd := cmd ++ ["-cp"; PyStr.join (pathsep os) classpath; main] in
  let cmd := cmd ++ args in
  cmd.

Definition _get_minimized_jar_classpath {A} (classpath : pyval)
    (block : list string -> Py A) : Py A :=
  paths ← lift (py_iter classpath);
  '(jar_classpath, non_jar_classpath) ← lift (split_jars paths [] []);
  let manifest := Manifest.empty in
  let manifest :=
    Manifest.addentry manifest Manifest.CLASS_PATH (PyStr.join " " jar_classpath) in
  let manifest := Manifest.addentry manifest Manifest.CREATED_BY "Pants_JAR_Minimizer" in
  let manifest := Manifest.addentry manifest Manifest.MANIFEST_VERSION "1.0" in
  temporary_file_path (fun classpath_jar_filepath =>
    open_jar classpath_jar_filepath
      (fun classpath_jar => writestr classpath_jar Manifest.PATH manifest);;
    let minimized_classpath := [classpath_jar_filepath] ++ non_jar_classpath in
    block minimized_classpath).

Definition _maybe_scrubbed_classpath {A} (self : Executor) (block : Py A) : Py A :=
  if _scrub_classpath self then
    classpath ← gets (fun w => environ w !! "CLASSPATH");
    match classpath with
    | Some value =>
        if negb (String.eqb value "")
        then log WARN ("Scrubbing CLASSPATH=" +:+ value)
        else mret tt
    | None => mret tt
    end;;
    environment_as "CLASSPATH" None block
  else
    block.

Definition _spawn (self : Executor) (cmd : list string)
    (subprocess_args : SubprocessArgs) : Py Process :=
  _maybe_scrubbed_classpath self (
    log DEBUG ("Executing: " +:+ PyStr.join " " cmd);;
    except_OSError (Popen cmd subprocess_args)
      (fun e => raise (ExecutorError ("Problem executing " +:+ java self +:+ ": " +:+ e)))).

Definition spawn (self : Executor) (classpath main jvm_options args : pyval)
    (subprocess_args : SubprocessArgs) : Py Process :=
  '(classpath, main, jvm_options, args) ←
    lift (_scrub_args classpath main jvm_options args);
  _spawn self (_create_command self classpath main jvm_options args) subprocess_args.

Definition _runner (self : Executor) (classpath : list string) (main : string)
    (jvm_options args : list string) : Py Runner.t :=
  match class_ self with
  | CommandLineGrabber =>
      modify (set_command (Some (_create_command self classpath main jvm_options args)));;
      mret {| Runner.executor := self;
              Runner.cmd :=
                command ← gets _command;
                match command with
                | Some c => mret (PyStr.join " " c)
                | None => raise TypeError
                end;
              Runner.run := fun _ _ => mret 0%Z |}
  | SubprocessExecutor =>
      let command := _create_command self classpath main jvm_options args in
      mret {| Runner.executor := self;
              Runner.cmd := mret (PyStr.join " " command);
              Runner.run := fun stdout stderr =>
                p ← _spawn self command
                      {| stdout := stdout; stderr := stderr; env := None |};
                wait p |}
  end.

Definition runner (self : Executor) (classpath main jvm_options args : pyval)
  : GeneratorContextManager Runner.t :=
  {| with_ := fun A block =>
       _get_minimized_jar_classpath classpath (fun minimized_classpath =>
         '(classpath, main, jvm_options, args) ←
           lift (_scrub_args (PList (PStr <$> minimized_classpath)) main jvm_options args);
         r ← _runner self classpath main jvm_options args;
         block r) |}.

Definition execute (self : Executor) (classpath main jvm_options args : pyval)
    (stdout stderr : option string) : Py Z :=
  let executor := ObjGeneratorContextManager (runner self classpath main jvm_options args) in
  run ← getattr_run executor;
  run stdout stderr.

End Executor.

(** ** Vocabulary of the statements *)

(** A classpath entry recognised as a jar archive. *)
Definition is_jar (path : string) : bool := PyStr.endswith path ".jar".

Definition jar_entries (classpath : list string) : list string :=
  List.filter is_jar classpath.

Definition other_entries (classpath : list string) : list string :=
  List.filter (fun path => negb (is_jar path)) classpath.

(** The manifest of the carrier archive for the given jar entries. *)
Definition carrier_manifest (jars : list string) : Manifest.t :=
  [ (Manifest.CLASS_PATH, PyStr.join " " jars);
    (Manifest.CREATED_BY, "Pants_JAR_Minimizer");
    (Manifest.MANIFEST_VERSION, "1.0") ].

(** The world once the temporary file [path] has been created. *)
Definition reserved (path : string) (w : World) : World :=
  emit (MkTemp path) (set_files (<[path := Blank]> (files w)) w).

(** The world once the carrier archive has been written to [path]. *)
Definition written (path : string) (jars : list string) (w : World) : World :=
  let members := [(Manifest.PATH, carrier_manifest jars)] in
  emit (WriteJar path members) (set_files (<[path := Jar members]> (files w)) w).

(** The world once the file [path] has been deleted. *)
Definition removed (path : string) (w : World) : World :=
  emit (Unlink path) (set_files (delete path (files w)) w).

(** [Collection v ss]: [v] is a single string or a list or tuple of
    strings, and [ss] are its items. *)
Inductive Collection : pyval -> list string -> Prop :=
| Collection_single s : Collection (PStr s) [s]
| Collection_list ss : Collection (PList (PStr <$> ss)) ss
| Collection_tuple ss : Collection (PTuple (PStr <$> ss)) ss.

(** [Optional v ss]: [v] is false in a boolean context (such as [None])
    and [ss] is empty, or [v] is a collection with items [ss]. *)
Definition Optional (v : pyval) (ss : list string) : Prop :=
  if truthy v then Collection v ss else ss = [].

(** [main] is a non-empty string. *)
Definition valid_main (main : pyval) : bool := is_string main && truthy main.

(** The warning [_maybe_scrubbed_classpath] logs for an ambient value. *)
Definition scrub_warning (ambient : option string) : list Event :=
  match ambient with
  | Some value =>
      if negb (String.eqb value "") then [Log WARN ("Scrubbing CLASSPATH=" +:+ value)]
      else []
  | None => []
  end.

(** The environment a child started by [_spawn] receives: the [env]
    keyword when the caller gave one, otherwise [os.environ] as it is
    during the call, that is without [CLASSPATH] when scrubbing is on. *)
Definition spawn_environ (self : Executor) (subprocess_args : SubprocessArgs)
    (w : World) : gmap string string :=
  default (if _scrub_classpath self then delete "CLASSPATH" (environ w) else environ w)
          (env subprocess_args).

(** What [_spawn] logs before it starts the child. *)
Definition spawn_log (self : Executor) (cmd : list string) (w : World) : list Event :=
  (if _scrub_classpath self then scrub_warning (environ w !! "CLASSPATH") else [])
  ++ [Log DEBUG ("Executing: " +:+ PyStr.join " " cmd)].

(** The message of the [Executor.Error] raised for a refused spawn. *)
Definition launch_error (self : Executor) (description : string) : string :=
  "Problem executing " +:+ java self +:+ ": " +:+ description.

(** The world after further interactions that touch nothing else. *)
Definition extend (w : World) (events : list Event) : World :=
  {| files := files w; environ := environ w; trace := trace w ++ events;
     _command := _command w |}.

(** [part] occurs literally inside [whole]. *)
Definition occurs_in (part whole : string) : Prop :=
  exists before after, whole = before +:+ part +:+ after.

(** A block for the scope of the minimized classpath that opens the
    archive at the head of the classpath it is given and reads the
    [Class-Path] attribute of its manifest, split on spaces. *)
Definition read_class_path (minimized_classpath : list string) : Py (option (list string)) :=
  gets (fun w =>
    match files w !! hd "" minimized_classpath with
    | Some (Jar [(name, manifest)]) =>
        if String.eqb name Manifest.PATH
        then PyStr.split PyStr.space <$> Manifest.attribute manifest Manifest.CLASS_PATH
        else None
    | _ => None
    end).

(** ** A concrete system for the examples *)

Module Sample.

Definition posix : OS := {|
  pathsep := ":";
  mkstemp := fun fs => fresh_string_of_set "/tmp/tmp" (dom fs);
  refuses := fun p fs =>
    match fs !! hd "" (p_args p) with
    | Some _ => None
    | None => Some "[Errno 2] No such file or directory"
    end;
  child := fun p fs => (0%Z, fs)
|}.

Definition world : World := {|
  files := {[ "/usr/bin/java" := Blank ]};
  environ := {[ "CLASSPATH" := "/old.jar"; "HOME" := "/root" ]};
  trace := [];
  _command := None
|}.

Definition grabber : Executor :=
  {| class_ := CommandLineGrabber; java := "/usr/bin/java"; _scrub_classpath := false |}.

Definition subprocess : Executor :=
  {| class_ := SubprocessExecutor; java := "/usr/bin/java"; _scrub_classpath := true |}.

Definition missing_java : Executor :=
  {| class_ := SubprocessExecutor; java := "/opt/jdk/bin/java"; _scrub_classpath := true |}.

Definition only_directories : list string := ["e/classes"].

Definition jar_with_space : list string := ["my libs/a.jar"; "e/classes"].

Definition two_jars : list string := ["a/b.jar"; "c/d.jar"; "e/classes"].

Definition no_kwargs : SubprocessArgs :=
  {| stdout := None; stderr := None; env := None |}.

End Sample.

(** ** Constructors and the grabber's command *)

(** Modelled from the spec: [pants.java.distribution.Distribution] is not
    among the sources.  A distribution is the validated runtime whose
    java binary an executor launches. *)
Module Distribution.
Record t : Type := { java : string }.
End Distribution.

(** What a caller can pass as [distribution]: a distribution, or some
    other value ([None] when the argument is left out). *)
Inductive InitArg : Type :=
| NotDistribution (v : pyval)
| IsDistribution (d : Distribution.t).

(** [bool(distribution)]: a distribution is a plain object, hence true. *)
Definition init_truthy (distribution : InitArg) : bool :=
  match distribution with
  | NotDistribution v => truthy v
  | IsDistribution _ => true
  end.

(** [CommandLineGrabber.cmd] *)
Definition CommandLineGrabber_cmd : Py (option (list string)) := gets _command.

Section Init.

(** [distribution.validate()] and [Distribution.cached()], which the
    constructor calls and which are not among the sources. *)
Context (validate : Distribution.t -> Py unit) (cached : Py Distribution.t).

(** [Executor.__init__], for an instance of class [cls]; the flag is the
    one [SubprocessExecutor.__init__] stores afterwards. *)
Definition Executor_init (cls : Class) (scrub_classpath : bool)
    (distribution : InitArg) : Py Executor :=
  distribution ←
    (if init_truthy distribution then
       match distribution with
       | NotDistribution v => _ ← lift (format_given v); raise ValueError
       | IsDistribution d => validate d;; mret d
       end
     else cached);
  mret {| class_ := cls; java := Distribution.java distribution;
          _scrub_classpath := scrub_classpath |}.

(** [CommandLineGrabber.__init__] *)
Definition CommandLineGrabber_init (distribution : InitArg) : Py Executor :=
  self ← Executor_init CommandLineGrabber false distribution;
  modify (set_command None);;
  mret self.

(** [SubprocessExecutor.__init__] *)
Definition SubprocessExecutor_init (distribution : InitArg) (scrub_classpath : bool)
  : Py Executor :=
  Executor_init SubprocessExecutor scrub_classpath distribution.

End Init.

(** ** More concrete inputs for the examples *)

Module Fixture.

Definition unscrubbed : Executor :=
  {| class_ := SubprocessExecutor; java := "/usr/bin/java"; _scrub_classpath := false |}.

Definition with_classpath : SubprocessArgs :=
  {| stdout := None; stderr := None; env := Some {[ "CLASSPATH" := "/mine.jar" ]} |}.

Definition version : list string := ["/usr/bin/java"; "-version"].

Definition jdk : Distribution.t := {| Distribution.java := "/opt/jdk/bin/java" |}.

Definition validate_ok (d : Distribution.t) : Py unit := mret tt.


Definition cached_default : Py Distribution.t :=
  mret {| Distribution.java := "/usr/bin/java" |}.

End Fixture.

(** * Properties *)

(** ** Joining and splitting *)

Example endswith_jar : PyStr.endswith "a/b.jar" ".jar" = true.
Proof. reflexivity. Qed.

Example endswith_dir : PyStr.endswith "e/classes" ".jar" = false.
Proof. reflexivity. Qed.

Example endswith_short : PyStr.endswith "jar" ".jar" = false.
Proof. reflexivity. Qed.

Example split_two : PyStr.split PyStr.space "a/b.jar c/d.jar" = ["a/b.jar"; "c/d.jar"].
Proof. reflexivity. Qed.

Example split_empty : PyStr.split PyStr.space "" = [""].
Proof. reflexivity. Qed.

Section Strings.

Variable sep : ascii.

Lemma split_not_nil (s : string) : PyStr.split sep s <> [].
Proof.
  destruct s as [|a rest]; simpl; [discriminate|].
  destruct (Ascii.eqb a sep); [discriminate|].
  destruct (PyStr.split sep rest); discriminate.
Qed.

Lemma split_without_sep (s : string) :
  PyStr.contains sep s = false -> PyStr.split sep s = [s].
Proof.
  induction s as [|a rest IH]; simpl; [reflexivity|].
  intros H. apply orb_false_iff in H as [Ha Hrest].
  rewrite Ha, (IH Hrest). reflexivity.
Qed.

Lemma split_field (field rest : string) :
  PyStr.contains sep field = false ->
  PyStr.split sep (field +:+ String sep rest) = field :: PyStr.split sep rest.
Proof.
  induction field as [|a field IH]; simpl; intros H.
  - rewrite Ascii.eqb_refl. reflexivity.
  - apply orb_false_iff in H as [Ha Hfield].
    rewrite Ha, (IH Hfield). reflexivity.
Qed.

Lemma split_join (fields : list string) :
  fields <> [] ->
  forallb (fun f => negb (PyStr.contains sep f)) fields = true ->
  PyStr.split sep (PyStr.join (String sep EmptyString) fields) = fields.
Proof.
  induction fields as [|f [|g fields] IH]; intros Hne Hall; [congruence| |].
  - simpl in *. apply andb_true_iff in Hall as [Hf _].
    apply negb_true_iff in Hf. now apply split_without_sep.
  - change (forallb _ (f :: g :: fields))
      with (negb (PyStr.contains sep f)
            && forallb (fun f => negb (PyStr.contains sep f)) (g :: fields)) in Hall.
    apply andb_true_iff in Hall as [Hf Hrest].
    apply negb_true_iff in Hf.
    change (PyStr.join (String sep EmptyString) (f :: g :: fields))
      with (f +:+ String sep (PyStr.join (String sep EmptyString) (g :: fields))).
    rewrite (split_field _ _ Hf), IH; [reflexivity|discriminate|exact Hrest].
Qed.

End Strings.

Lemma append_cons (a : ascii) (s t : string) : String a s +:+ t = String a (s +:+ t).
Proof. reflexivity. Qed.

Lemma append_empty (s : string) : s +:+ "" = s.
Proof.
  induction s as [|a s IH]; [reflexivity|]. now rewrite append_cons, IH.
Qed.

Lemma append_assoc (a b c : string) : (a +:+ b) +:+ c = a +:+ b +:+ c.
Proof.
  induction a as [|x a IH]; [reflexivity|]. now rewrite !append_cons, IH.
Qed.

(** Every part of a joined string occurs in it. *)
Lemma join_occurs (sep : string) (parts : list string) (part : string) :
  In part parts -> occurs_in part (PyStr.join sep parts).
Proof.
  induction parts as [|p [|q parts] IH]; intros Hin.
  - destruct Hin.
  - destruct Hin as [->|[]]. exists "", "".
    change (part = part +:+ ""). now rewrite append_empty.
  - change (PyStr.join sep (p :: q :: parts))
      with (p +:+ sep +:+ PyStr.join sep (q :: parts)).
    destruct Hin as [->|Hin].
    + exists "", (sep +:+ PyStr.join sep (q :: parts)). reflexivity.
    + destruct (IH Hin) as (before & after & Heq).
      exists (p +:+ sep +:+ before), after.
      rewrite Heq, !append_assoc. reflexivity.
Qed.

(** ** The loop that separates jars from the rest *)

Lemma split_jars_strings (classpath jars others : list string) :
  split_jars (PStr <$> classpath) jars others
  = Return (jars ++ jar_entries classpath, others ++ other_entries classpath).
Proof.
  revert jars others.
  induction classpath as [|path classpath IH]; intros jars others; simpl.
  - now rewrite !app_nil_r.
  - unfold jar_entries, other_entries, is_jar in *. simpl.
    destruct (PyStr.endswith path ".jar"); simpl; rewrite IH, <- app_assoc; reflexivity.
Qed.

Lemma jar_entries_nil (classpath : list string) :
  existsb is_jar classpath = false ->
  jar_entries classpath = [] /\ other_entries classpath = classpath.
Proof.
  unfold jar_entries, other_entries.
  induction classpath as [|path classpath IH]; simpl; [easy|].
  intros H. apply orb_false_iff in H as [Hp Hrest].
  rewrite Hp. simpl. destruct (IH Hrest) as [-> ->]. easy.
Qed.

(** ** The scope of the minimized classpath *)

Section Minimizer.

Context (os : OS).

(** Once the classpath has been separated, the scope creates the
    carrier archive, runs its block on the minimized classpath and
    deletes the archive, whatever the outcome of the block. *)
Lemma minimizer_scope {A} (classpath : pyval) (paths : list pyval)
    (jars others : list string) (block : list string -> Py A) (w : World) :
  py_iter classpath = Return paths ->
  split_jars paths [] [] = Return (jars, others) ->
  _get_minimized_jar_classpath os classpath block w
  = let carrier := mkstemp os (files w) in
    let '(r, w') := block ([carrier] ++ others) (written carrier jars (reserved carrier w)) in
    (r, removed carrier w').
Proof.
  intros Hiter Hsplit.
  unfold _get_minimized_jar_classpath, lift, mbind, Py_bind.
  rewrite Hiter, Hsplit. reflexivity.
Qed.

Lemma minimizer_scope_strings {A} (classpath : list string)
    (block : list string -> Py A) (w : World) :
  _get_minimized_jar_classpath os (PList (PStr <$> classpath)) block w
  = let carrier := mkstemp os (files w) in
    let '(r, w') := block ([carrier] ++ other_entries classpath)
                      (written carrier (jar_entries classpath) (reserved carrier w)) in
    (r, removed carrier w').
Proof.
  apply minimizer_scope with (paths := PStr <$> classpath); [reflexivity|].
  apply split_jars_strings.
Qed.

Lemma removed_gone (path : string) (w : World) : files (removed path w) !! path = None.
Proof. unfold removed. simpl. apply lookup_delete_eq. Qed.

Lemma written_present (path : string) (jars : list string) (w : World) :
  files (written path jars w) !! path
  = Some (Jar [(Manifest.PATH, carrier_manifest jars)]).
Proof. unfold written. simpl. apply lookup_insert_eq. Qed.

End Minimizer.

(** ** Scrubbing the arguments *)

Example scrub_ok :
  _scrub_args (PList [PStr "a.jar"]) (PStr "com.Main") PNone (PStr "x")
  = Return (["a.jar"], "com.Main", [], ["x"]).
Proof. reflexivity. Qed.

Example scrub_empty_main :
  _scrub_args (PList []) (PStr "") PNone PNone = Raise ValueError.
Proof. reflexivity. Qed.

Lemma strings_of_strings (ss : list string) : strings_of (PStr <$> ss) = Some ss.
Proof.
  induction ss as [|s ss IH]; [reflexivity|].
  rewrite fmap_cons. simpl. now rewrite IH.
Qed.

Lemma maybe_list_collection (v : pyval) (ss : list string) :
  Collection v ss -> maybe_list v = Return ss.
Proof.
  intros [s|l|l]; simpl; [reflexivity| |]; now rewrite strings_of_strings.
Qed.

Lemma maybe_list_optional (v : pyval) (ss : list string) :
  Optional v ss -> maybe_list (py_or v (PTuple [])) = Return ss.
Proof.
  unfold Optional, py_or. destruct (truthy v).
  - apply maybe_list_collection.
  - intros ->. reflexivity.
Qed.

Lemma scrub_args_invalid_main (classpath main jvm_options args : pyval) (cp : list string) :
  maybe_list classpath = Return cp ->
  valid_main main = false ->
  format_given main = Return tt ->
  _scrub_args classpath main jvm_options args = Raise ValueError.
Proof.
  intros Hcp Hmain Hfmt. unfold _scrub_args, mbind, Outcome_bind.
  rewrite Hcp. unfold valid_main in Hmain.
  replace (negb (is_string main) || negb (truthy main)) with true
    by (destruct (is_string main), (truthy main); simpl in *; congruence).
  now rewrite Hfmt.
Qed.

Lemma scrub_args_valid (classpath main jvm_options args : pyval) (cp j a : list string) :
  maybe_list classpath = Return cp ->
  valid_main main = true ->
  maybe_list (py_or jvm_options (PTuple [])) = Return j ->
  maybe_list (py_or args (PTuple [])) = Return a ->
  _scrub_args classpath main jvm_options args = Return (cp, text main, j, a).
Proof.
  intros Hcp Hmain Hj Ha. unfold _scrub_args, mbind, Outcome_bind.
  rewrite Hcp. unfold valid_main in Hmain.
  apply andb_true_iff in Hmain as [-> ->]. simpl.
  now rewrite Hj, Ha.
Qed.

(** ** The command line *)

(** C7: for every java path, classpath, entry point, jvm options and
    program arguments, [_create_command] returns exactly the java path,
    then the jvm options, then ["-cp"], the classpath joined with the
    path separator and the entry point, then the program arguments.  It
    is a total function of these arguments alone: it reads and changes
    nothing else and rejects no input. *)
Theorem create_command_layout (os : OS) (self : Executor) (classpath : list string)
    (main : string) (jvm_options args : list string) :
  _create_command os self classpath main jvm_options args
  = [java self] ++ jvm_options
      ++ ["-cp"; PyStr.join (pathsep os) classpath; main] ++ args.
Proof.
  unfold _create_command. now rewrite <- !app_assoc.
Qed.

Example create_command_example :
  _create_command Sample.posix Sample.grabber
    ["a/b.jar"; "c/d.jar"; "e/classes"] "com.Main" [] ["x"]
  = ["/usr/bin/java"; "-cp"; "a/b.jar:c/d.jar:e/classes"; "com.Main"; "x"].
Proof. reflexivity. Qed.

(** ** Executor.execute *)

(** C1: [execute] never gets as far as a runner.  [runner] is a
    generator wrapped by [contextmanager], so calling it only builds a
    context manager object; looking up [run] on that object raises
    [AttributeError], whatever the executor and the arguments, and the
    world is left untouched: nothing is validated, minimized or run, and
    no exit code is returned. *)
Theorem execute_raises_AttributeError (os : OS) (self : Executor)
    (classpath main jvm_options args : pyval) (stdout stderr : option string) (w : World) :
  execute os self classpath main jvm_options args stdout stderr w
  = (Raise AttributeError, w).
Proof. reflexivity. Qed.

Example execute_example :
  execute Sample.posix Sample.grabber
    (PList [PStr "a/b.jar"; PStr "e/classes"]) (PStr "com.Main") PNone (PList [PStr "x"])
    None None Sample.world
  = (Raise AttributeError, Sample.world).
Proof. reflexivity. Qed.

(** Entering the scope of [runner] and running the runner inside it,
    which [execute] was meant to do, does give an exit code. *)
Example runner_then_run_example :
  fst (with_ (runner Sample.posix Sample.grabber
                (PList [PStr "a/b.jar"; PStr "e/classes"]) (PStr "com.Main") PNone
                (PList [PStr "x"]))
         (fun r => Runner.run r None None) Sample.world)
  = Return 0%Z.
Proof. reflexivity. Qed.

(** ** The minimized classpath *)

(** C2, as stated, fails: for the classpath [["e/classes"]], which has no
    jar entry, the scope yields a classpath of two entries headed by a
    carrier archive, and a temporary file has been created for it. *)
Lemma minimizer_without_jars_changes_classpath :
  existsb is_jar Sample.only_directories = false
  /\ fst (_get_minimized_jar_classpath Sample.posix
            (PList (PStr <$> Sample.only_directories)) mret Sample.world)
     = Return ["/tmp/tmp"; "e/classes"]
  /\ fst (_get_minimized_jar_classpath Sample.posix
            (PList (PStr <$> Sample.only_directories)) mret Sample.world)
     <> Return Sample.only_directories
  /\ In (MkTemp "/tmp/tmp")
       (trace (snd (_get_minimized_jar_classpath Sample.posix
                      (PList (PStr <$> Sample.only_directories)) mret Sample.world))).
Proof.
  vm_compute. repeat split; [discriminate | now left].
Qed.

(** C2, amended: for every classpath of strings none of which ends in
    [".jar"], the scope still creates a carrier archive, whose manifest
    has an empty [Class-Path], runs its block on the carrier path
    followed by the whole input classpath, and deletes the carrier when
    the block is left. *)
Theorem minimizer_without_jars (os : OS) (classpath : list string) (w : World) :
  existsb is_jar classpath = false ->
  let carrier := mkstemp os (files w) in
  let inside := written carrier [] (reserved carrier w) in
  (forall A (block : list string -> Py A),
     _get_minimized_jar_classpath os (PList (PStr <$> classpath)) block w
     = let '(r, w') := block ([carrier] ++ classpath) inside in (r, removed carrier w'))
  /\ files inside !! carrier = Some (Jar [(Manifest.PATH, carrier_manifest [])])
  /\ Manifest.attribute (carrier_manifest []) Manifest.CLASS_PATH = Some "".
Proof.
  intros Hnone carrier inside.
  destruct (jar_entries_nil classpath Hnone) as [Hjars Hothers].
  split; [|split].
  - intros A block. rewrite minimizer_scope_strings, Hjars, Hothers. reflexivity.
  - apply written_present.
  - reflexivity.
Qed.

Lemma minimizer_without_jars_witness :
  existsb is_jar Sample.only_directories = false
  /\ _get_minimized_jar_classpath Sample.posix
       (PList (PStr <$> Sample.only_directories)) mret Sample.world
     = (Return ("/tmp/tmp" :: Sample.only_directories),
        removed "/tmp/tmp" (written "/tmp/tmp" [] (reserved "/tmp/tmp" Sample.world))).
Proof.
  split; [reflexivity|].
  exact (proj1 (minimizer_without_jars Sample.posix Sample.only_directories Sample.world
                  eq_refl) _ mret).
Defined.

Lemma fst_scope {A} (x : Outcome A * World) (cleanup : World -> World) :
  fst (let '(r, w') := x in (r, cleanup w')) = fst x.
Proof. now destruct x. Qed.

Lemma snd_scope {A} (x : Outcome A * World) (cleanup : World -> World) :
  snd (let '(r, w') := x in (r, cleanup w')) = cleanup (snd x).
Proof. now destruct x. Qed.

Lemma jar_entries_not_nil (classpath : list string) :
  existsb is_jar classpath = true -> jar_entries classpath <> [].
Proof.
  unfold jar_entries.
  induction classpath as [|path classpath IH]; simpl; [discriminate|].
  destruct (is_jar path); [discriminate|]. exact IH.
Qed.

Lemma read_class_path_written (path : string) (jars others : list string) (w : World) :
  fst (read_class_path ([path] ++ others) (written path jars w))
  = Return (Some (PyStr.split PyStr.space (PyStr.join " " jars))).
Proof.
  unfold read_class_path, gets. simpl.
  rewrite lookup_insert_eq. reflexivity.
Qed.

(** C4, as stated, fails: a jar entry with a space in its path is one
    entry of the classpath, and two fields of the [Class-Path] attribute
    of the carrier archive. *)
Lemma class_path_splits_jar_with_space :
  existsb is_jar Sample.jar_with_space = true
  /\ jar_entries Sample.jar_with_space = ["my libs/a.jar"]
  /\ fst (_get_minimized_jar_classpath Sample.posix
            (PList (PStr <$> Sample.jar_with_space)) read_class_path Sample.world)
     = Return (Some ["my"; "libs/a.jar"])
  /\ fst (_get_minimized_jar_classpath Sample.posix
            (PList (PStr <$> Sample.jar_with_space)) read_class_path Sample.world)
     <> Return (Some (jar_entries Sample.jar_with_space)).
Proof.
  vm_compute. repeat split. discriminate.
Qed.

(** C4, amended: for every classpath of strings with at least one jar
    entry, with or without spaces in its paths, the scope runs its block
    on the carrier path followed by the non-jar entries, which are one
    more than the non-jar entries; and when no jar entry contains a
    space, the [Class-Path] attribute of the manifest of the carrier
    archive, read inside the scope and split on spaces, is the list of
    the jar entries in their original order. *)
Theorem minimizer_with_jars (os : OS) (classpath : list string) (w : World) :
  existsb is_jar classpath = true ->
  let carrier := mkstemp os (files w) in
  let minimized_classpath := [carrier] ++ other_entries classpath in
  let inside := written carrier (jar_entries classpath) (reserved carrier w) in
  (forall A (block : list string -> Py A),
     _get_minimized_jar_classpath os (PList (PStr <$> classpath)) block w
     = let '(r, w') := block minimized_classpath inside in (r, removed carrier w'))
  /\ length minimized_classpath = 1 + length (other_entries classpath)
  /\ (forallb (fun path => negb (PyStr.contains PyStr.space path)) (jar_entries classpath)
      = true ->
      fst (_get_minimized_jar_classpath os (PList (PStr <$> classpath)) read_class_path w)
      = Return (Some (jar_entries classpath))).
Proof.
  intros Hsome carrier minimized_classpath inside.
  split; [|split].
  - intros A block. apply minimizer_scope_strings.
  - reflexivity.
  - intros Hspaces.
    rewrite minimizer_scope_strings, fst_scope, read_class_path_written.
    do 2 f_equal.
    apply (split_join PyStr.space); [now apply jar_entries_not_nil | exact Hspaces].
Qed.

Lemma minimizer_with_jars_witness :
  existsb is_jar Sample.two_jars = true
  /\ forallb (fun path => negb (PyStr.contains PyStr.space path))
       (jar_entries Sample.two_jars) = true
  /\ fst (_get_minimized_jar_classpath Sample.posix (PList (PStr <$> Sample.two_jars))
            read_class_path Sample.world)
     = Return (Some ["a/b.jar"; "c/d.jar"])
  /\ existsb is_jar Sample.jar_with_space = true
  /\ _get_minimized_jar_classpath Sample.posix (PList (PStr <$> Sample.jar_with_space))
       mret Sample.world
     = (Return ["/tmp/tmp"; "e/classes"],
        removed "/tmp/tmp"
          (written "/tmp/tmp" ["my libs/a.jar"] (reserved "/tmp/tmp" Sample.world))).
Proof.
  split; [reflexivity|]. split; [reflexivity|].
  split; [exact (proj2 (proj2 (minimizer_with_jars Sample.posix Sample.two_jars
                                 Sample.world eq_refl)) eq_refl)|].
  split; [reflexivity|].
  exact (proj1 (minimizer_with_jars Sample.posix Sample.jar_with_space Sample.world
                  eq_refl) _ mret).
Defined.

(** ** Leaving the scope *)

(** C5: whenever the classpath can be separated, so that the scope
    creates a carrier archive, the archive exists inside the scope and
    is gone from the file system once the scope is left, for every
    block: one that returns, one that fails to launch, one that raises
    partway; and likewise for the scope of [runner], also when the
    arguments are rejected after the archive was created. *)
Theorem carrier_deleted_on_exit (os : OS) (self : Executor)
    (classpath main jvm_options args : pyval)
    (paths : list pyval) (jars others : list string) (w : World) :
  py_iter classpath = Return paths ->
  split_jars paths [] [] = Return (jars, others) ->
  let carrier := mkstemp os (files w) in
  let inside := written carrier jars (reserved carrier w) in
  is_Some (files inside !! carrier)
  /\ (forall A (block : list string -> Py A),
        _get_minimized_jar_classpath os classpath block w
        = (let '(r, w') := block ([carrier] ++ others) inside in (r, removed carrier w'))
        /\ files (snd (_get_minimized_jar_classpath os classpath block w)) !! carrier = None)
  /\ (forall A (block : Runner.t -> Py A),
        files (snd (with_ (runner os self classpath main jvm_options args) block w))
          !! carrier = None).
Proof.
  intros Hiter Hsplit carrier inside.
  assert (Hscope : forall A (block : list string -> Py A),
             files (snd (_get_minimized_jar_classpath os classpath block w)) !! carrier
             = None).
  { intros A block. rewrite (minimizer_scope os _ _ _ _ block w Hiter Hsplit).
    cbv zeta. rewrite snd_scope. apply removed_gone. }
  split; [|split].
  - unfold inside. rewrite written_present. now eexists.
  - intros A block. split; [|apply Hscope].
    apply (minimizer_scope os _ _ _ _ block w Hiter Hsplit).
  - intros A block. apply Hscope.
Qed.

Lemma carrier_deleted_on_exit_witness :
  py_iter (PList (PStr <$> Sample.two_jars)) = Return (PStr <$> Sample.two_jars)
  /\ split_jars (PStr <$> Sample.two_jars) [] [] = Return (["a/b.jar"; "c/d.jar"], ["e/classes"])
  /\ files (snd (with_ (runner Sample.posix Sample.missing_java
                          (PList (PStr <$> Sample.two_jars)) (PStr "com.Main") PNone PNone)
                   (fun r => Runner.run r None None) Sample.world))
       !! "/tmp/tmp" = None.
Proof.
  split; [reflexivity|]. split; [reflexivity|].
  exact (proj2 (proj2 (carrier_deleted_on_exit Sample.posix Sample.missing_java
                         (PList (PStr <$> Sample.two_jars)) (PStr "com.Main") PNone PNone
                         _ _ _ Sample.world eq_refl eq_refl))
           _ (fun r => Runner.run r None None)).
Defined.

(** ** Rejected arguments *)

(** C3, as stated, fails: entering the scope of [runner] with an empty
    [main] raises [ValueError] only after the temporary file of the
    carrier archive has been created and written. *)
Lemma empty_main_rejected_after_carrier :
  fst (with_ (runner Sample.posix Sample.grabber
                (PList (PStr <$> Sample.two_jars)) (PStr "") PNone PNone)
         (fun r => Runner.run r None None) Sample.world)
  = Raise ValueError
  /\ trace Sample.world = []
  /\ trace (snd (with_ (runner Sample.posix Sample.grabber
                          (PList (PStr <$> Sample.two_jars)) (PStr "") PNone PNone)
                   (fun r => Runner.run r None None) Sample.world))
     = [ MkTemp "/tmp/tmp";
         WriteJar "/tmp/tmp" [(Manifest.PATH, carrier_manifest ["a/b.jar"; "c/d.jar"])];
         Unlink "/tmp/tmp" ].
Proof. vm_compute. repeat split. Qed.

(** C3, amended: for every executor, every classpath that can be
    separated and every [main] that is not a non-empty string (and not
    a tuple other than a one-element tuple), entering the scope of
    [runner] raises [ValueError] after the carrier archive has been
    created and written and before anything else happens: the block is
    not run, no command is captured by the [CommandLineGrabber] and no
    process is spawned; the only interactions are the creation, the
    writing and, as the error propagates, the deletion of the carrier
    archive. *)
Theorem runner_rejects_main (os : OS) (self : Executor)
    (classpath main jvm_options args : pyval)
    (paths : list pyval) (jars others : list string)
    {A} (block : Runner.t -> Py A) (w : World) :
  py_iter classpath = Return paths ->
  split_jars paths [] [] = Return (jars, others) ->
  valid_main main = false ->
  format_given main = Return tt ->
  let carrier := mkstemp os (files w) in
  let scope := with_ (runner os self classpath main jvm_options args) block w in
  scope = (Raise ValueError, removed carrier (written carrier jars (reserved carrier w)))
  /\ _command (snd scope) = _command w
  /\ environ (snd scope) = environ w
  /\ trace (snd scope)
     = trace w ++ [ MkTemp carrier;
                    WriteJar carrier [(Manifest.PATH, carrier_manifest jars)];
                    Unlink carrier ].
Proof.
  intros Hiter Hsplit Hmain Hfmt carrier scope.
  assert (Hscope : scope = (Raise ValueError,
                            removed carrier (written carrier jars (reserved carrier w)))).
  { unfold scope, runner, with_.
    rewrite (minimizer_scope os _ _ _ _ _ w Hiter Hsplit). cbv zeta.
    fold carrier. unfold mbind at 1, Py_bind at 1, lift at 1.
    rewrite (scrub_args_invalid_main _ main _ _ ([carrier] ++ others)
               (maybe_list_collection _ _ (Collection_list _)) Hmain Hfmt).
    reflexivity. }
  rewrite Hscope. repeat split.
  simpl. now rewrite <- !app_assoc.
Qed.

Lemma runner_rejects_main_witness :
  py_iter (PList (PStr <$> Sample.two_jars)) = Return (PStr <$> Sample.two_jars)
  /\ split_jars (PStr <$> Sample.two_jars) [] [] = Return (["a/b.jar"; "c/d.jar"], ["e/classes"])
  /\ valid_main PNone = false
  /\ format_given PNone = Return tt
  /\ _command (snd (with_ (runner Sample.posix Sample.grabber
                             (PList (PStr <$> Sample.two_jars)) PNone PNone PNone)
                      (fun r => Runner.run r None None) Sample.world))
     = _command Sample.world.
Proof.
  repeat (split; [reflexivity|]).
  exact (proj1 (proj2 (runner_rejects_main Sample.posix Sample.grabber
                         (PList (PStr <$> Sample.two_jars)) PNone PNone PNone _ _ _
                         (fun r => Runner.run r None None) Sample.world
                         eq_refl eq_refl eq_refl eq_refl))).
Defined.

(** ** Spawning *)

(** Putting back the old value of a variable undoes any setting of it. *)
Lemma setenv_restore (key : string) (val : option string) (e : gmap string string) :
  setenv key (e !! key) (setenv key val e) = e.
Proof.
  apply map_eq. intros k. unfold setenv.
  destruct (decide (key = k)) as [->|Hne].
  - destruct (e !! k) as [v|] eqn:Hk; destruct val;
      now rewrite ?lookup_insert_eq, ?lookup_delete_eq.
  - destruct (e !! key); destruct val;
      now rewrite ?lookup_insert_ne, ?lookup_delete_ne, ?lookup_insert_ne,
                  ?lookup_delete_ne by assumption.
Qed.

(** [environment_as] leaves [os.environ] as it found it when its block
    does, whether the block returns or raises. *)
Lemma environment_as_restores {A} (key : string) (val : option string)
    (block : Py A) (w : World) :
  (forall w0, environ (snd (block w0)) = environ w0) ->
  environ (snd (environment_as key val block w)) = environ w.
Proof.
  intros Hblock.
  unfold environment_as, try_finally, gets, modify, mbind, Py_bind. simpl.
  specialize (Hblock (set_environ (setenv key val (environ w)) w)).
  destruct (block _) as [r w']. simpl in *. rewrite Hblock.
  apply setenv_restore.
Qed.

Section Spawn.

Context (os : OS).

(** [_spawn] logs, starts the child in the scrubbed environment and
    leaves [os.environ] as it found it, whether or not the system
    starts the child. *)
Lemma spawn_outcome (self : Executor) (cmd : list string)
    (subprocess_args : SubprocessArgs) (w : World) :
  let p := {| p_args := cmd; p_environ := spawn_environ self subprocess_args w |} in
  _spawn os self cmd subprocess_args w
  = match refuses os p (files w) with
    | Some d => (Raise (ExecutorError (launch_error self d)),
                 extend w (spawn_log self cmd w ++ [SpawnRefused p d]))
    | None => (Return p, extend w (spawn_log self cmd w ++ [Spawned p]))
    end.
Proof.
  intros p. subst p.
  unfold _spawn, _maybe_scrubbed_classpath, spawn_environ, spawn_log, extend.
  destruct (_scrub_classpath self).
  - unfold environment_as, try_finally, except_OSError, Popen, log, modify, gets,
      raise, mbind, Py_bind, mret, Py_ret, scrub_warning.
    destruct (environ w !! "CLASSPATH") as [value|] eqn:Hambient; simpl;
      [destruct (negb (String.eqb value "")); simpl|];
      rewrite ?Hambient;
      match goal with
      | |- context [refuses os ?q ?fs] => destruct (refuses os q fs)
      end; simpl; unfold set_environ, emit; simpl;
      rewrite <- ?app_assoc; simpl;
      f_equal; f_equal; try reflexivity.
    all: first [ rewrite insert_delete_eq; now apply insert_id
               | rewrite delete_delete_eq; now apply delete_id ].
  - unfold except_OSError, Popen, log, modify, raise, mbind, Py_bind. simpl.
    destruct (refuses os _ (files w)); simpl; unfold emit; simpl;
      rewrite <- ?app_assoc; reflexivity.
Qed.

End Spawn.

Section Run.

Context (os : OS).

(** Making a runner with a [SubprocessExecutor] and running it: the
    command is spawned with the two streams and no other keyword, and
    waited for when the system started it. *)
Lemma subprocess_run (self : Executor) (classpath : list string) (main : string)
    (jvm_options args : list string) (stdout stderr : option string) (w : World) :
  class_ self = SubprocessExecutor ->
  (r ← _runner os self classpath main jvm_options args; Runner.run r stdout stderr) w
  = (p ← _spawn os self (_create_command os self classpath main jvm_options args)
           {| stdout := stdout; stderr := stderr; env := None |};
     wait os p) w.
Proof.
  intros Hclass. unfold _runner. rewrite Hclass. reflexivity.
Qed.

Lemma wait_outcome (p : Process) (w : World) :
  wait os p w
  = (Return (fst (child os p (files w))),
     emit (Waited p (fst (child os p (files w))))
       (set_files (snd (child os p (files w))) w)).
Proof. unfold wait. now destruct (child os p (files w)). Qed.

Lemma run_outcome (self : Executor) (classpath : list string) (main : string)
    (jvm_options args : list string) (stdout stderr : option string) (w : World) :
  class_ self = SubprocessExecutor ->
  let cmd := _create_command os self classpath main jvm_options args in
  let kwargs := {| stdout := stdout; stderr := stderr; env := None |} in
  let p := {| p_args := cmd; p_environ := spawn_environ self kwargs w |} in
  (r ← _runner os self classpath main jvm_options args; Runner.run r stdout stderr) w
  = match refuses os p (files w) with
    | Some d => (Raise (ExecutorError (launch_error self d)),
                 extend w (spawn_log self cmd w ++ [SpawnRefused p d]))
    | None => (Return (fst (child os p (files w))),
               set_files (snd (child os p (files w)))
                 (extend w ((spawn_log self cmd w ++ [Spawned p])
                            ++ [Waited p (fst (child os p (files w)))])))
    end.
Proof.
  intros Hclass cmd kwargs p.
  rewrite (subprocess_run _ _ _ _ _ _ _ _ Hclass). fold cmd. fold kwargs.
  unfold mbind, Py_bind. rewrite spawn_outcome. fold p.
  destruct (refuses os p (files w)) as [d|]; [reflexivity|].
  rewrite wait_outcome. unfold emit, set_files, extend. simpl.
  now rewrite <- !app_assoc.
Qed.

(** C6, amended: with scrubbing on, every call of [_spawn] starts the
    child in a scope in which [os.environ] has no [CLASSPATH] and every
    other variable as before: the child is given that environment unless
    the caller passed [env], in which case it is given exactly [env]; a
    warning is logged exactly when the ambient [CLASSPATH] was a
    non-empty string; and when the call is over, whether the system
    started the child or refused and [Executor.Error] was raised, the
    whole of [os.environ], [CLASSPATH] included, and the files are as
    they were before.  [run] on a runner of a [SubprocessExecutor]
    passes no [env]: its child is started without [CLASSPATH] and with
    every other variable as the caller has it, it is waited for after
    the environment has been restored, and after [run], by return or by
    [Executor.Error], [os.environ] is as it was before. *)
Theorem spawn_scrubs_CLASSPATH (self : Executor) (classpath : list string) (main : string)
    (jvm_options args : list string) (stdout stderr : option string) (w : World) :
  class_ self = SubprocessExecutor ->
  _scrub_classpath self = true ->
  let scrubbed := delete "CLASSPATH" (environ w) in
  let cmd := _create_command os self classpath main jvm_options args in
  let p := {| p_args := cmd; p_environ := scrubbed |} in
  let ran :=
    (r ← _runner os self classpath main jvm_options args; Runner.run r stdout stderr) w in
  let warning := scrub_warning (environ w !! "CLASSPATH") in
  let logged := warning ++ [Log DEBUG ("Executing: " +:+ PyStr.join " " cmd)] in
  scrubbed !! "CLASSPATH" = None
  /\ (forall key, key <> "CLASSPATH" -> scrubbed !! key = environ w !! key)
  /\ environ (snd ran) = environ w
  /\ (forall (command : list string) (kwargs : SubprocessArgs),
        let q := {| p_args := command; p_environ := default scrubbed (env kwargs) |} in
        let spawned := _spawn os self command kwargs w in
        environ (snd spawned) = environ w
        /\ files (snd spawned) = files w
        /\ match refuses os q (files w) with
           | Some d =>
               fst spawned = Raise (ExecutorError (launch_error self d))
               /\ trace (snd spawned)
                  = trace w ++ warning
                    ++ [Log DEBUG ("Executing: " +:+ PyStr.join " " command);
                        SpawnRefused q d]
           | None =>
               fst spawned = Return q
               /\ trace (snd spawned)
                  = trace w ++ warning
                    ++ [Log DEBUG ("Executing: " +:+ PyStr.join " " command); Spawned q]
           end)
  /\ match refuses os p (files w) with
     | Some d =>
         fst ran = Raise (ExecutorError (launch_error self d))
         /\ trace (snd ran) = trace w ++ logged ++ [SpawnRefused p d]
     | None =>
         fst ran = Return (fst (child os p (files w)))
         /\ trace (snd ran)
            = trace w ++ logged ++ [Spawned p; Waited p (fst (child os p (files w)))]
     end.
Proof.
  intros Hclass Hscrub scrubbed cmd p ran warning logged.
  pose proof (run_outcome self classpath main jvm_options args stdout stderr w Hclass)
    as Hran.
  cbv zeta in Hran. fold cmd in Hran. fold ran in Hran.
  replace (spawn_environ self _ w) with scrubbed in Hran
    by (unfold spawn_environ, scrubbed; now rewrite Hscrub).
  replace (spawn_log self cmd w) with logged in Hran
    by (unfold spawn_log, logged, warning; now rewrite Hscrub).
  fold p in Hran.
  split; [apply lookup_delete_eq|].
  split; [intros key Hkey; apply lookup_delete_ne; congruence|].
  assert (Hspawn : forall (command : list string) (kwargs : SubprocessArgs),
    let q := {| p_args := command; p_environ := default scrubbed (env kwargs) |} in
    let spawned := _spawn os self command kwargs w in
    environ (snd spawned) = environ w
    /\ files (snd spawned) = files w
    /\ match refuses os q (files w) with
       | Some d =>
           fst spawned = Raise (ExecutorError (launch_error self d))
           /\ trace (snd spawned)
              = trace w ++ warning
                ++ [Log DEBUG ("Executing: " +:+ PyStr.join " " command);
                    SpawnRefused q d]
       | None =>
           fst spawned = Return q
           /\ trace (snd spawned)
              = trace w ++ warning
                ++ [Log DEBUG ("Executing: " +:+ PyStr.join " " command); Spawned q]
       end).
  { intros command kwargs q spawned.
    assert (Hspawned : spawned
      = match refuses os q (files w) with
        | Some d => (Raise (ExecutorError (launch_error self d)),
                     extend w (spawn_log self command w ++ [SpawnRefused q d]))
        | None => (Return q, extend w (spawn_log self command w ++ [Spawned q]))
        end).
    { unfold spawned. rewrite spawn_outcome. cbv zeta.
      replace (spawn_environ self kwargs w) with (default scrubbed (env kwargs))
        by (unfold spawn_environ, scrubbed; now rewrite Hscrub).
      reflexivity. }
    replace (spawn_log self command w)
      with (warning ++ [Log DEBUG ("Executing: " +:+ PyStr.join " " command)])
      in Hspawned by (unfold spawn_log, warning; now rewrite Hscrub).
    rewrite Hspawned.
    destruct (refuses os q (files w)); cbn [fst snd extend environ files trace];
      rewrite <- ?app_assoc; repeat split. }
  split; [now destruct (refuses os p (files w)); rewrite Hran|].
  split; [exact Hspawn|].
  destruct (refuses os p (files w)) as [d|]; rewrite Hran.
  - repeat split.
  - repeat split. simpl. now rewrite <- app_assoc.
Qed.

(** C9: whenever the system refuses to start the command, [_spawn]
    raises [Executor.Error], with the message ["Problem executing "]
    followed by the java path of the executor, [": "] and the text of
    the [OSError]; no process is recorded as spawned, [os.environ] is
    as before, and [run] on a runner of a [SubprocessExecutor] raises
    the same error without waiting. *)
Theorem refused_spawn_raises_Error (self : Executor) (cmd : list string)
    (subprocess_args : SubprocessArgs) (w : World) (d : string) :
  let p := {| p_args := cmd; p_environ := spawn_environ self subprocess_args w |} in
  refuses os p (files w) = Some d ->
  _spawn os self cmd subprocess_args w
  = (Raise (ExecutorError ("Problem executing " +:+ java self +:+ ": " +:+ d)),
     extend w (spawn_log self cmd w ++ [SpawnRefused p d]))
  /\ occurs_in (java self) (launch_error self d)
  /\ occurs_in d (launch_error self d)
  /\ (forall (stdout stderr : option string) (classpath : list string) (main : string)
             (jvm_options args : list string),
        class_ self = SubprocessExecutor ->
        subprocess_args = {| stdout := stdout; stderr := stderr; env := None |} ->
        cmd = _create_command os self classpath main jvm_options args ->
        (r ← _runner os self classpath main jvm_options args; Runner.run r stdout stderr) w
        = (Raise (ExecutorError (launch_error self d)),
           extend w (spawn_log self cmd w ++ [SpawnRefused p d]))).
Proof.
  intros p Hrefused.
  assert (Hspawn : _spawn os self cmd subprocess_args w
    = (Raise (ExecutorError (launch_error self d)),
       extend w (spawn_log self cmd w ++ [SpawnRefused p d]))).
  { rewrite spawn_outcome. fold p. now rewrite Hrefused. }
  split; [exact Hspawn|]. split; [|split].
  - exists "Problem executing ", (": " +:+ d). reflexivity.
  - exists ("Problem executing " +:+ java self +:+ ": "), "".
    unfold launch_error. now rewrite append_empty, !append_assoc.
  - intros stdout stderr classpath main jvm_options args Hclass Hargs Hcmd.
    rewrite (subprocess_run _ _ _ _ _ _ _ _ Hclass), <- Hcmd, <- Hargs.
    unfold mbind, Py_bind. now rewrite Hspawn.
Qed.

End Run.

Lemma spawn_scrubs_CLASSPATH_witness :
  class_ Sample.subprocess = SubprocessExecutor
  /\ _scrub_classpath Sample.subprocess = true
  /\ environ Sample.world !! "CLASSPATH" = Some "/old.jar"
  /\ environ (snd ((r ← _runner Sample.posix Sample.subprocess Sample.two_jars
                          "com.Main" [] ["x"];
                    Runner.run r None None) Sample.world))
     = environ Sample.world
  /\ environ (snd (_spawn Sample.posix Sample.subprocess Fixture.version
                     Fixture.with_classpath Sample.world))
     = environ Sample.world.
Proof.
  split; [reflexivity|]. split; [reflexivity|]. split; [reflexivity|].
  split.
  - exact (proj1 (proj2 (proj2 (spawn_scrubs_CLASSPATH Sample.posix Sample.subprocess
                                  Sample.two_jars "com.Main" [] ["x"] None None
                                  Sample.world eq_refl eq_refl)))).
  - exact (proj1 (proj1 (proj2 (proj2 (proj2
             (spawn_scrubs_CLASSPATH Sample.posix Sample.subprocess
                Sample.two_jars "com.Main" [] ["x"] None None
                Sample.world eq_refl eq_refl))))
             Fixture.version Fixture.with_classpath)).
Defined.

(** C6, as stated, fails: with scrubbing on, a child that [spawn] starts
    with an [env] keyword holding [CLASSPATH] does observe [CLASSPATH]. *)
Lemma scrubbed_spawn_child_observes_CLASSPATH :
  _scrub_classpath Sample.subprocess = true
  /\ match fst (spawn Sample.posix Sample.subprocess (PList (PStr <$> Sample.two_jars))
                  (PStr "com.Main") PNone PNone Fixture.with_classpath Sample.world) with
     | Return child_process =>
         p_environ child_process !! "CLASSPATH" = Some "/mine.jar"
         /\ In (Spawned child_process)
              (trace (snd (spawn Sample.posix Sample.subprocess
                             (PList (PStr <$> Sample.two_jars)) (PStr "com.Main") PNone
                             PNone Fixture.with_classpath Sample.world)))
     | Raise _ => False
     end.
Proof.
  split; [reflexivity|]. vm_compute. split; [reflexivity|]. auto.
Qed.

Lemma refused_spawn_raises_Error_witness :
  refuses Sample.posix
    {| p_args := ["/opt/jdk/bin/java"; "-cp"; "a.jar"; "com.Main"];
       p_environ := spawn_environ Sample.missing_java Sample.no_kwargs Sample.world |}
    (files Sample.world)
  = Some "[Errno 2] No such file or directory"
  /\ fst (_spawn Sample.posix Sample.missing_java
            ["/opt/jdk/bin/java"; "-cp"; "a.jar"; "com.Main"] Sample.no_kwargs Sample.world)
     = Raise (ExecutorError
                "Problem executing /opt/jdk/bin/java: [Errno 2] No such file or directory").
Proof.
  split; [reflexivity|].
  exact (f_equal fst
           (proj1 (refused_spawn_raises_Error Sample.posix Sample.missing_java
                     ["/opt/jdk/bin/java"; "-cp"; "a.jar"; "com.Main"]
                     Sample.no_kwargs Sample.world
                     "[Errno 2] No such file or directory" eq_refl))).
Defined.

(** ** SubprocessExecutor.spawn *)

Lemma scrub_args_classpath (c1 c2 main jvm_options args : pyval)
    (cp1 cp2 : list string) (m : string) (j a : list string) :
  _scrub_args c1 main jvm_options args = Return (cp1, m, j, a) ->
  maybe_list c2 = Return cp2 ->
  _scrub_args c2 main jvm_options args = Return (cp2, m, j, a).
Proof.
  unfold _scrub_args, mbind, Outcome_bind. intros H1 H2. rewrite H2.
  destruct (maybe_list c1); [|discriminate].
  destruct (negb (is_string main) || negb (truthy main)).
  - destruct (format_given main); discriminate.
  - destruct (maybe_list (py_or jvm_options (PTuple []))); [|discriminate].
    destruct (maybe_list (py_or args (PTuple []))); [|discriminate].
    congruence.
Qed.

Lemma scrub_args_classpath_result (classpath main jvm_options args : pyval)
    (cp : list string) (m : string) (j a : list string) :
  _scrub_args classpath main jvm_options args = Return (cp, m, j, a) ->
  maybe_list classpath = Return cp.
Proof.
  unfold _scrub_args, mbind, Outcome_bind. intros H.
  destruct (maybe_list classpath); [|discriminate].
  destruct (negb (is_string main) || negb (truthy main)).
  - destruct (format_given main); discriminate.
  - destruct (maybe_list (py_or jvm_options (PTuple []))); [|discriminate].
    destruct (maybe_list (py_or args (PTuple []))); [|discriminate].
    congruence.
Qed.

(** C10, amended: for every classpath and arguments that [_scrub_args] accepts,
    [spawn] hands [_spawn] the command assembled from the scrubbed
    classpath itself: every entry of the classpath, jar or not, occurs
    literally in the ["-cp"] argument; the file system is not touched,
    and the only interactions are the log records of [_spawn] and the
    start of the child, so no carrier archive is created.  The scope of
    [runner], by contrast, makes its runner from the carrier path
    followed by the non-jar entries, inside the scope of the carrier. *)
Theorem spawn_skips_minimizer (os : OS) (self : Executor)
    (classpath main jvm_options args : pyval) (subprocess_args : SubprocessArgs)
    (w : World) (cp : list string) (m : string) (j a : list string) :
  _scrub_args classpath main jvm_options args = Return (cp, m, j, a) ->
  let cmd := [java self] ++ j ++ ["-cp"; PyStr.join (pathsep os) cp; m] ++ a in
  let p := {| p_args := cmd; p_environ := spawn_environ self subprocess_args w |} in
  let spawned := spawn os self classpath main jvm_options args subprocess_args w in
  spawned = _spawn os self cmd subprocess_args w
  /\ (forall entry, In entry cp -> occurs_in entry (PyStr.join (pathsep os) cp))
  /\ In (PyStr.join (pathsep os) cp) (p_args p)
  /\ files (snd spawned) = files w
  /\ (exists outcome,
        trace (snd spawned) = trace w ++ spawn_log self cmd w ++ [outcome]
        /\ (outcome = Spawned p \/ exists d, outcome = SpawnRefused p d))
  /\ (forall A (block : Runner.t -> Py A),
        classpath = PList (PStr <$> cp) ->
        with_ (runner os self classpath main jvm_options args) block w
        = let carrier := mkstemp os (files w) in
          let '(r, w') :=
            (r ← _runner os self ([carrier] ++ other_entries cp) m j a; block r)
              (written carrier (jar_entries cp) (reserved carrier w)) in
          (r, removed carrier w')).
Proof.
  intros Hscrub cmd p spawned.
  assert (Hspawned : spawned = _spawn os self cmd subprocess_args w).
  { unfold spawned, spawn, lift, mbind, Py_bind. rewrite Hscrub.
    unfold _create_command, cmd. now rewrite <- !app_assoc. }
  split; [exact Hspawned|].
  split; [intros entry Hin; now apply join_occurs|].
  split; [unfold p, cmd; simpl; rewrite !in_app_iff; simpl; tauto|].
  rewrite Hspawned, spawn_outcome. fold p.
  split; [now destruct (refuses os p (files w))|].
  split.
  - destruct (refuses os p (files w)) as [d|]; eexists; simpl;
      (split; [reflexivity|]); eauto.
  - intros A block ->. unfold runner, with_.
    rewrite minimizer_scope_strings. cbv zeta.
    unfold mbind at 1, Py_bind at 1, lift at 1.
    rewrite (scrub_args_classpath _ (PList (PStr <$> [mkstemp os (files w)]
                                                 ++ other_entries cp))
               _ _ _ _ _ _ _ _ Hscrub (maybe_list_collection _ _ (Collection_list _))).
    reflexivity.
Qed.

Lemma spawn_skips_minimizer_witness :
  _scrub_args (PList (PStr <$> Sample.two_jars)) (PStr "com.Main") PNone (PStr "x")
  = Return (Sample.two_jars, "com.Main", [], ["x"])
  /\ spawn Sample.posix Sample.subprocess (PList (PStr <$> Sample.two_jars))
       (PStr "com.Main") PNone (PStr "x") Sample.no_kwargs Sample.world
     = _spawn Sample.posix Sample.subprocess
         ["/usr/bin/java"; "-cp"; "a/b.jar:c/d.jar:e/classes"; "com.Main"; "x"]
         Sample.no_kwargs Sample.world.
Proof.
  split; [reflexivity|].
  exact (proj1 (spawn_skips_minimizer Sample.posix Sample.subprocess
                  (PList (PStr <$> Sample.two_jars)) (PStr "com.Main") PNone (PStr "x")
                  Sample.no_kwargs Sample.world Sample.two_jars "com.Main" [] ["x"]
                  eq_refl)).
Defined.

(** C10, as stated, fails: [execute] does not minimize first.  For a
    classpath with jar entries it raises [AttributeError] without any
    interaction, so no carrier archive is ever created, whereas the
    scope of [runner] on the same arguments does create one. *)
Lemma execute_creates_no_carrier :
  existsb is_jar Sample.two_jars = true
  /\ execute Sample.posix Sample.subprocess (PList (PStr <$> Sample.two_jars))
       (PStr "com.Main") PNone PNone None None Sample.world
     = (Raise AttributeError, Sample.world)
  /\ trace (snd (execute Sample.posix Sample.subprocess (PList (PStr <$> Sample.two_jars))
                   (PStr "com.Main") PNone PNone None None Sample.world))
     = []
  /\ In (MkTemp "/tmp/tmp")
       (trace (snd (with_ (runner Sample.posix Sample.subprocess
                             (PList (PStr <$> Sample.two_jars)) (PStr "com.Main") PNone
                             PNone)
                      (fun r => Runner.run r None None) Sample.world))).
Proof.
  split; [reflexivity|]. split; [reflexivity|]. split; [reflexivity|].
  vm_compute. now left.
Qed.

(** ** What _scrub_args accepts *)

(** C8, as stated, fails: with a valid [main], a [classpath] of [None] is
    not turned into an empty sequence but rejected with [ValueError];
    only [jvm_options] and [args] go through [or ()]. *)
Lemma scrub_args_rejects_None_classpath :
  valid_main (PStr "com.Main") = true
  /\ _scrub_args PNone (PStr "com.Main") PNone PNone = Raise ValueError
  /\ _scrub_args (PList []) (PStr "com.Main") PNone PNone
     = Return ([], "com.Main", [], []).
Proof. repeat split. Qed.

(** C8, amended: when [classpath] is a string or a list or tuple of
    strings with items [cp], [_scrub_args] raises [ValueError] if [main]
    is not a non-empty string (and not a tuple other than a one-element
    tuple); if [main] is a non-empty string and each of [jvm_options]
    and [args] is either false in a boolean context, such as [None], or
    a string or a list or tuple of strings, it returns [cp], [main], and
    for [jvm_options] and [args] the empty list in the first case, the
    one-element list of a single string and the list of the items of a
    sequence.  For such [jvm_options] and [args] it raises [ValueError]
    exactly when [main] is not a non-empty string.  A [classpath] of
    [None] is always rejected with [ValueError]. *)
Theorem scrub_args_normalizes (classpath main jvm_options args : pyval)
    (cp : list string) :
  Collection classpath cp ->
  (valid_main main = false -> format_given main = Return tt ->
     _scrub_args classpath main jvm_options args = Raise ValueError)
  /\ (forall j a : list string,
        Optional jvm_options j -> Optional args a ->
        (valid_main main = true ->
           _scrub_args classpath main jvm_options args = Return (cp, text main, j, a)
           /\ main = PStr (text main))
        /\ (format_given main = Return tt ->
              (_scrub_args classpath main jvm_options args = Raise ValueError
               <-> valid_main main = false)))
  /\ _scrub_args PNone main jvm_options args = Raise ValueError.
Proof.
  intros Hcp. apply maybe_list_collection in Hcp.
  assert (Hbad : valid_main main = false -> format_given main = Return tt ->
                 _scrub_args classpath main jvm_options args = Raise ValueError)
    by (intros; now apply scrub_args_invalid_main with (cp := cp)).
  assert (Hgood : forall j a, Optional jvm_options j -> Optional args a ->
                  valid_main main = true ->
                  _scrub_args classpath main jvm_options args
                  = Return (cp, text main, j, a)).
  { intros j a Hj Ha Hmain.
    apply scrub_args_valid; auto using maybe_list_optional. }
  split; [exact Hbad|]. split; [|reflexivity].
  intros j a Hj Ha. split.
  - intros Hmain. split; [now apply Hgood|].
    unfold valid_main in Hmain. destruct main; simpl in Hmain; try discriminate.
    reflexivity.
  - intros Hfmt. split.
    + intros Hraise. apply not_true_is_false. intros Hmain.
      rewrite (Hgood j a Hj Ha Hmain) in Hraise. discriminate.
    + intros Hmain. now apply Hbad.
Qed.

Lemma scrub_args_normalizes_witness :
  Collection (PStr "a.jar") ["a.jar"]
  /\ Optional PNone []
  /\ Optional (PTuple (PStr <$> ["x"; "y"])) ["x"; "y"]
  /\ valid_main (PStr "com.Main") = true
  /\ _scrub_args (PStr "a.jar") (PStr "com.Main") PNone (PTuple (PStr <$> ["x"; "y"]))
     = Return (["a.jar"], "com.Main", [], ["x"; "y"]).
Proof.
  split; [constructor|]. split; [reflexivity|].
  split; [exact (Collection_tuple ["x"; "y"])|]. split; [reflexivity|].
  exact (proj1 (proj1 (proj1 (proj2 (scrub_args_normalizes (PStr "a.jar") (PStr "com.Main")
                                       PNone (PTuple (PStr <$> ["x"; "y"])) ["a.jar"]
                                       (Collection_single "a.jar")))
                         [] ["x"; "y"] eq_refl (Collection_tuple ["x"; "y"]))
                  eq_refl)).
Defined.

(** * Further properties of the module *)

(** ** Outcomes of _scrub_args *)




(** ** The separation of jars from other entries *)

Lemma filter_sublist {A} (f : A -> bool) (l : list A) : sublist (List.filter f l) l.
Proof.
  induction l as [|x l IH]; simpl; [constructor|].
  destruct (f x); now constructor.
Qed.

Lemma filter_split_permutation {A} (f : A -> bool) (l : list A) :
  Permutation l (List.filter f l ++ List.filter (fun x => negb (f x)) l).
Proof.
  induction l as [|x l IH]; simpl; [constructor|].
  destruct (f x); simpl.
  - now constructor.
  - now apply Permutation_cons_app.
Qed.

(** X2: when the loop of [_get_minimized_jar_classpath] runs over a
    classpath of strings it always succeeds, and it only rearranges the
    classpath: the two lists together are a permutation of the
    classpath, each is a subsequence of it (the order within each is
    kept), the jar list holds exactly the entries ending in [".jar"] and
    the other list none of them. *)
Theorem split_jars_partitions (classpath : list string) :
  exists jars others,
    split_jars (PStr <$> classpath) [] [] = Return (jars, others)
    /\ Permutation classpath (jars ++ others)
    /\ sublist jars classpath /\ sublist others classpath
    /\ length jars + length others = length classpath
    /\ (forall path, In path jars <-> In path classpath /\ PyStr.endswith path ".jar" = true)
    /\ (forall path, In path others <-> In path classpath /\ PyStr.endswith path ".jar" = false).
Proof.
  exists (jar_entries classpath), (other_entries classpath).
  split; [apply split_jars_strings|].
  pose proof (filter_split_permutation is_jar classpath) as Hperm.
  fold (jar_entries classpath) in Hperm. fold (other_entries classpath) in Hperm.
  split; [exact Hperm|].
  split; [apply filter_sublist|]. split; [apply filter_sublist|].
  split; [rewrite <- length_app; symmetry; now apply Permutation_length|].
  split; intros path; unfold jar_entries, other_entries; rewrite filter_In;
    unfold is_jar; [reflexivity|].
  now rewrite negb_true_iff.
Qed.

(** ** Classpaths that are not lists of strings *)

Lemma endswith_jar_char (a : ascii) : PyStr.endswith (String a EmptyString) ".jar" = false.
Proof. reflexivity. Qed.

Lemma split_jars_chars (s : string) (jars others : list string) :
  split_jars (PStr <$> PyStr.chars s) jars others = Return (jars, others ++ PyStr.chars s).
Proof.
  revert others. induction s as [|a s IH]; intros others; simpl.
  - now rewrite app_nil_r.
  - rewrite IH, <- app_assoc. reflexivity.
Qed.

Lemma chars_length (s : string) : length (PyStr.chars s) = String.length s.
Proof. induction s as [|a s IH]; simpl; [reflexivity|now rewrite IH]. Qed.

(** X3: a classpath given to the minimizer as one string is iterated
    character by character: whatever the string, even one ending in
    [".jar"], the carrier archive gets an empty [Class-Path] and the
    block receives the carrier path followed by the one-character
    strings of the classpath, one more entry than the string has
    characters; [maybe_list], which [spawn] relies on, takes the same
    string as a single entry. *)
Theorem minimizer_iterates_string (os : OS) (s : string) (w : World) :
  let carrier := mkstemp os (files w) in
  let inside := written carrier [] (reserved carrier w) in
  (forall A (block : list string -> Py A),
     _get_minimized_jar_classpath os (PStr s) block w
     = let '(r, w') := block ([carrier] ++ PyStr.chars s) inside in (r, removed carrier w'))
  /\ length ([carrier] ++ PyStr.chars s) = 1 + String.length s
  /\ maybe_list (PStr s) = Return [s].
Proof.
  intros carrier inside. split; [|split].
  - intros A block.
    apply (minimizer_scope os (PStr s) (PStr <$> PyStr.chars s) [] (PyStr.chars s));
      [reflexivity|apply split_jars_chars].
  - simpl. now rewrite chars_length.
  - reflexivity.
Qed.

Lemma split_jars_not_strings (paths : list pyval) (jars others : list string) :
  strings_of paths = None -> split_jars paths jars others = Raise AttributeError.
Proof.
  revert jars others.
  induction paths as [|x paths IH]; intros jars others; simpl; [discriminate|].
  destruct x; try reflexivity.
  destruct (strings_of paths) eqn:Hrest; [discriminate|]. intros _.
  destruct (PyStr.endswith s ".jar"); now apply IH.
Qed.

(** X4: a classpath that is not a string and that [maybe_list] would
    reject with [ValueError] never gets that far in the scope of
    [runner]: [None], a boolean or a number raises [TypeError], and a
    list or tuple with an item that is not a string raises
    [AttributeError]; this happens whatever [main] and the other
    arguments are, the block is not run and the world is untouched. *)
Theorem runner_rejects_unusable_classpath (os : OS) (self : Executor)
    (classpath main jvm_options args : pyval) {A} (block : Runner.t -> Py A) (w : World) :
  is_string classpath = false ->
  maybe_list classpath = Raise ValueError ->
  exists e,
    with_ (runner os self classpath main jvm_options args) block w = (Raise e, w)
    /\ (e = TypeError <-> py_iter classpath = Raise TypeError)
    /\ (e = AttributeError <-> exists paths, py_iter classpath = Return paths).
Proof.
  intros Hstr Hbad.
  destruct classpath as [|b|z|s|items|items]; simpl in Hstr, Hbad; try discriminate.
  1-3: exists TypeError; repeat split; try discriminate;
       intros [paths Hpaths]; discriminate.
  all: destruct (strings_of items) eqn:Hitems; [discriminate|];
       exists AttributeError; split;
       [ unfold runner, with_, _get_minimized_jar_classpath, lift, mbind, Py_bind;
         simpl; now rewrite (split_jars_not_strings _ [] [] Hitems)
       | repeat split; try discriminate; eauto ].
Qed.

Lemma runner_rejects_unusable_classpath_witness :
  is_string PNone = false
  /\ maybe_list PNone = Raise ValueError
  /\ exists e,
       with_ (runner Sample.posix Sample.grabber PNone (PStr "com.Main") PNone PNone)
         (fun r => Runner.run r None None) Sample.world
       = (Raise e, Sample.world)
       /\ (e = TypeError <-> py_iter PNone = Raise TypeError)
       /\ (e = AttributeError <-> exists paths, py_iter PNone = Return paths).
Proof.
  split; [reflexivity|]. split; [reflexivity|].
  exact (runner_rejects_unusable_classpath Sample.posix Sample.grabber PNone
           (PStr "com.Main") PNone PNone (fun r => Runner.run r None None) Sample.world
           eq_refl eq_refl).
Defined.

(** ** More on spawning *)

(** X5: [spawn] validates before it does anything: with an acceptable
    classpath and a [main] that is not a non-empty string (nor a tuple
    of other than one element) it raises [ValueError] and the world is
    untouched: nothing is logged, no process is started, no file is
    created and [os.environ] is never changed. *)
Theorem spawn_rejects_main_untouched (os : OS) (self : Executor)
    (classpath main jvm_options args : pyval) (subprocess_args : SubprocessArgs)
    (cp : list string) (w : World) :
  maybe_list classpath = Return cp ->
  valid_main main = false ->
  format_given main = Return tt ->
  spawn os self classpath main jvm_options args subprocess_args w = (Raise ValueError, w).
Proof.
  intros Hcp Hmain Hfmt. unfold spawn, lift, mbind, Py_bind.
  now rewrite (scrub_args_invalid_main _ _ _ _ cp Hcp Hmain Hfmt).
Qed.

Lemma spawn_rejects_main_untouched_witness :
  maybe_list (PList (PStr <$> Sample.two_jars)) = Return Sample.two_jars
  /\ valid_main (PInt 7) = false
  /\ format_given (PInt 7) = Return tt
  /\ spawn Sample.posix Sample.subprocess (PList (PStr <$> Sample.two_jars)) (PInt 7)
       PNone PNone Sample.no_kwargs Sample.world
     = (Raise ValueError, Sample.world).
Proof.
  repeat (split; [reflexivity|]).
  exact (spawn_rejects_main_untouched Sample.posix Sample.subprocess
           (PList (PStr <$> Sample.two_jars)) (PInt 7) PNone PNone Sample.no_kwargs
           Sample.two_jars Sample.world eq_refl eq_refl eq_refl).
Defined.

(** X6: a [SubprocessExecutor] made with [scrub_classpath=False] starts
    the child with the whole of [os.environ], an ambient [CLASSPATH]
    included, and logs no warning: the only interactions are the debug
    record and the start of the child. *)
Theorem spawn_unscrubbed_inherits_environ (os : OS) (self : Executor) (cmd : list string)
    (subprocess_args : SubprocessArgs) (w : World) :
  _scrub_classpath self = false ->
  env subprocess_args = None ->
  let p := {| p_args := cmd; p_environ := environ w |} in
  let logged := [Log DEBUG ("Executing: " +:+ PyStr.join " " cmd)] in
  _spawn os self cmd subprocess_args w
  = match refuses os p (files w) with
    | Some d => (Raise (ExecutorError (launch_error self d)),
                 extend w (logged ++ [SpawnRefused p d]))
    | None => (Return p, extend w (logged ++ [Spawned p]))
    end.
Proof.
  intros Hscrub Henv p logged. rewrite spawn_outcome.
  unfold spawn_environ, spawn_log. rewrite Hscrub, Henv. reflexivity.
Qed.

Lemma spawn_unscrubbed_inherits_environ_witness :
  _scrub_classpath Fixture.unscrubbed = false
  /\ env Sample.no_kwargs = None
  /\ fst (_spawn Sample.posix Fixture.unscrubbed Fixture.version
            Sample.no_kwargs Sample.world)
     = Return {| p_args := Fixture.version; p_environ := environ Sample.world |}.
Proof.
  split; [reflexivity|]. split; [reflexivity|].
  exact (f_equal fst
           (spawn_unscrubbed_inherits_environ Sample.posix Fixture.unscrubbed
              Fixture.version Sample.no_kwargs Sample.world eq_refl eq_refl)).
Defined.

(** X7: scrubbing does not reach a child whose environment the caller
    of [spawn] passes as [env]: the child is started with exactly that
    environment, a [CLASSPATH] in it included, although the warning
    about the ambient [CLASSPATH] is still logged and [os.environ] is
    still restored. *)
Theorem spawn_env_keyword_wins (os : OS) (self : Executor) (cmd : list string)
    (subprocess_args : SubprocessArgs) (given : gmap string string) (w : World) :
  env subprocess_args = Some given ->
  let p := {| p_args := cmd; p_environ := given |} in
  _spawn os self cmd subprocess_args w
  = match refuses os p (files w) with
    | Some d => (Raise (ExecutorError (launch_error self d)),
                 extend w (spawn_log self cmd w ++ [SpawnRefused p d]))
    | None => (Return p, extend w (spawn_log self cmd w ++ [Spawned p]))
    end.
Proof.
  intros Henv p. rewrite spawn_outcome.
  unfold spawn_environ. rewrite Henv. reflexivity.
Qed.

Lemma spawn_env_keyword_wins_witness :
  env Fixture.with_classpath = Some {[ "CLASSPATH" := "/mine.jar" ]}
  /\ _scrub_classpath Sample.subprocess = true
  /\ fst (_spawn Sample.posix Sample.subprocess Fixture.version
            Fixture.with_classpath Sample.world)
     = Return {| p_args := Fixture.version;
                 p_environ := {[ "CLASSPATH" := "/mine.jar" ]} |}.
Proof.
  split; [reflexivity|]. split; [reflexivity|].
  exact (f_equal fst
           (spawn_env_keyword_wins Sample.posix Sample.subprocess Fixture.version
              Fixture.with_classpath {[ "CLASSPATH" := "/mine.jar" ]} Sample.world
              eq_refl)).
Defined.

(** ** The scope of the scrubbed CLASSPATH *)

(** X8: with scrubbing on, whatever block [_maybe_scrubbed_classpath]
    encloses starts in a world without [CLASSPATH] (and with the warning
    logged when the ambient value was a non-empty string); when the
    block is left, by returning or by raising, [CLASSPATH] is again what
    it was before the scope, even if the block set it, and every other
    variable is as the block left it. *)
Theorem scrubbed_scope_restores_CLASSPATH (self : Executor) {A} (block : Py A) (w : World) :
  _scrub_classpath self = true ->
  exists start,
    environ start = delete "CLASSPATH" (environ w)
    /\ trace start = trace w ++ scrub_warning (environ w !! "CLASSPATH")
    /\ files start = files w /\ _command start = _command w
    /\ fst (_maybe_scrubbed_classpath self block w) = fst (block start)
    /\ environ (snd (_maybe_scrubbed_classpath self block w)) !! "CLASSPATH"
       = environ w !! "CLASSPATH"
    /\ (forall key, key <> "CLASSPATH" ->
          environ (snd (_maybe_scrubbed_classpath self block w)) !! key
          = environ (snd (block start)) !! key)
    /\ files (snd (_maybe_scrubbed_classpath self block w)) = files (snd (block start))
    /\ trace (snd (_maybe_scrubbed_classpath self block w)) = trace (snd (block start)).
Proof.
  intros Hscrub.
  exists (set_environ (delete "CLASSPATH" (environ w))
            (extend w (scrub_warning (environ w !! "CLASSPATH")))).
  split; [reflexivity|]. split; [reflexivity|]. split; [reflexivity|].
  split; [reflexivity|].
  assert (Hrun : _maybe_scrubbed_classpath self block w
    = let '(r, w') := block (set_environ (delete "CLASSPATH" (environ w))
                               (extend w (scrub_warning (environ w !! "CLASSPATH")))) in
      (r, set_environ (setenv "CLASSPATH" (environ w !! "CLASSPATH") (environ w')) w')).
  { unfold _maybe_scrubbed_classpath. rewrite Hscrub.
    unfold environment_as, try_finally, gets, modify, log, mbind, Py_bind, mret, Py_ret,
      scrub_warning, extend, set_environ, emit, setenv. simpl.
    destruct (environ w !! "CLASSPATH") as [value|] eqn:Hambient; simpl;
      [destruct (negb (String.eqb value "")); simpl|];
      rewrite ?Hambient, ?app_nil_r; destruct w; reflexivity. }
  rewrite Hrun. destruct (block _) as [r w']. simpl.
  split; [reflexivity|].
  split.
  - unfold setenv. destruct (environ w !! "CLASSPATH").
    + apply lookup_insert_eq.
    + apply lookup_delete_eq.
  - split; [|split; reflexivity].
    intros key Hkey. unfold setenv. destruct (environ w !! "CLASSPATH").
    + now apply lookup_insert_ne.
    + now apply lookup_delete_ne.
Qed.

Lemma scrubbed_scope_restores_CLASSPATH_witness :
  _scrub_classpath Sample.subprocess = true
  /\ environ (snd (_maybe_scrubbed_classpath Sample.subprocess
                     (modify (fun w => set_environ (<["CLASSPATH" := "/sneaky.jar"]>
                                                      (environ w)) w))
                     Sample.world))
       !! "CLASSPATH"
     = Some "/old.jar".
Proof.
  split; [reflexivity|].
  destruct (scrubbed_scope_restores_CLASSPATH Sample.subprocess
              (modify (fun w => set_environ (<["CLASSPATH" := "/sneaky.jar"]> (environ w)) w))
              Sample.world eq_refl) as (start & _ & _ & _ & _ & _ & Hrestored & _).
  exact Hrestored.
Defined.

(** ** Runners *)

Section Runners.

Context (os : OS).

Lemma subprocess_runner (self : Executor) (classpath : list string) (main : string)
    (jvm_options args : list string) (w : World) :
  class_ self = SubprocessExecutor ->
  exists r,
    _runner os self classpath main jvm_options args w = (Return r, w)
    /\ Runner.executor r = self
    /\ (forall w', Runner.cmd r w'
          = (Return (PyStr.join " " (_create_command os self classpath main jvm_options args)),
             w'))
    /\ (forall stdout stderr w',
          Runner.run r stdout stderr w'
          = (r' ← _runner os self classpath main jvm_options args;
             Runner.run r' stdout stderr) w').
Proof.
  intros Hclass. unfold _runner. rewrite Hclass.
  eexists. split; [reflexivity|]. repeat split.
Qed.

Lemma grabber_runner (self : Executor) (classpath : list string) (main : string)
    (jvm_options args : list string) (w : World) :
  class_ self = CommandLineGrabber ->
  exists r,
    _runner os self classpath main jvm_options args w
    = (Return r,
       set_command (Some (_create_command os self classpath main jvm_options args)) w)
    /\ Runner.executor r = self
    /\ (forall stdout stderr w', Runner.run r stdout stderr w' = (Return 0%Z, w'))
    /\ (forall w', Runner.cmd r w'
          = match _command w' with
            | Some c => (Return (PyStr.join " " c), w')
            | None => (Raise TypeError, w')
            end).
Proof.
  intros Hclass. unfold _runner. rewrite Hclass.
  eexists. split; [reflexivity|]. repeat split.
  intros w'. unfold mbind, Py_bind, gets. simpl. now destruct (_command w').
Qed.

(** X9: a runner of a [SubprocessExecutor] can be run again, and each
    run starts a process anew: running it twice is running it once from
    the world the first run left; when the first child was started, the
    second attempt is made with the same command line and the same
    environment, on the files the first child left behind. *)
Theorem run_again_spawns_again (self : Executor) (classpath : list string) (main : string)
    (jvm_options args : list string) (stdout stderr : option string) (w : World) :
  class_ self = SubprocessExecutor ->
  let cmd := _create_command os self classpath main jvm_options args in
  let kwargs := {| stdout := stdout; stderr := stderr; env := None |} in
  let p := {| p_args := cmd; p_environ := spawn_environ self kwargs w |} in
  let once :=
    r ← _runner os self classpath main jvm_options args; Runner.run r stdout stderr in
  let twice :=
    r ← _runner os self classpath main jvm_options args;
    _ ← Runner.run r stdout stderr; Runner.run r stdout stderr in
  refuses os p (files w) = None ->
  twice w = once (snd (once w))
  /\ fst (once w) = Return (fst (child os p (files w)))
  /\ files (snd (once w)) = snd (child os p (files w))
  /\ spawn_environ self kwargs (snd (once w)) = spawn_environ self kwargs w
  /\ trace (snd (twice w))
     = trace w
       ++ (spawn_log self cmd w ++ [Spawned p; Waited p (fst (child os p (files w)))])
       ++ spawn_log self cmd w
       ++ match refuses os p (snd (child os p (files w))) with
          | Some d => [SpawnRefused p d]
          | None => [Spawned p; Waited p (fst (child os p (snd (child os p (files w)))))]
          end.
Proof.
  intros Hclass cmd kwargs p once twice Hstarted.
  pose proof (run_outcome os self classpath main jvm_options args stdout stderr)
    as Hrun. cbv zeta in Hrun. fold cmd kwargs in Hrun.
  assert (Honce : once w
    = (Return (fst (child os p (files w))),
       set_files (snd (child os p (files w)))
         (extend w ((spawn_log self cmd w ++ [Spawned p])
                    ++ [Waited p (fst (child os p (files w)))])))).
  { unfold once. rewrite (Hrun w Hclass). fold p. now rewrite Hstarted. }
  assert (Htwice : twice w = once (snd (once w))).
  { destruct (subprocess_runner self classpath main jvm_options args w Hclass)
      as (r & Hr & _ & _ & Hrrun).
    unfold twice. unfold mbind at 1, Py_bind at 1. rewrite Hr.
    unfold mbind at 1, Py_bind at 1. rewrite (Hrrun stdout stderr w).
    fold once. rewrite Honce. simpl. apply Hrrun. }
  split; [exact Htwice|]. rewrite Htwice, Honce. simpl.
  split; [reflexivity|]. split; [reflexivity|]. split; [reflexivity|].
  unfold once. rewrite (Hrun _ Hclass). simpl.
  change (spawn_environ self kwargs _) with (spawn_environ self kwargs w). fold p.
  change (spawn_log self cmd _) with (spawn_log self cmd w).
  destruct (refuses os p (snd (child os p (files w)))); simpl;
    now rewrite <- !app_assoc.
Qed.

(** X10: [_runner] of a [CommandLineGrabber] stores the assembled
    command on the grabber and starts nothing; the runner it returns
    belongs to the grabber, its [run] returns 0 for any streams in any
    world and leaves the world as it is, the [cmd] of the grabber is the
    stored command, and the [cmd] of the runner is that command joined
    with spaces. *)
Theorem grabber_runner_records_command (self : Executor) (classpath : list string)
    (main : string) (jvm_options args : list string) (w : World) :
  class_ self = CommandLineGrabber ->
  let command := _create_command os self classpath main jvm_options args in
  exists r,
    _runner os self classpath main jvm_options args w
    = (Return r, set_command (Some command) w)
    /\ Runner.executor r = self
    /\ (forall stdout stderr w', Runner.run r stdout stderr w' = (Return 0%Z, w'))
    /\ (r' ← _runner os self classpath main jvm_options args; CommandLineGrabber_cmd) w
       = (Return (Some command), set_command (Some command) w)
    /\ (r' ← _runner os self classpath main jvm_options args; Runner.cmd r') w
       = (Return (PyStr.join " " command), set_command (Some command) w).
Proof.
  intros Hclass command.
  destruct (grabber_runner self classpath main jvm_options args w Hclass)
    as (r & Hr & Hexec & Hrun & Hcmd). fold command in Hr.
  exists r. split; [exact Hr|]. split; [exact Hexec|]. split; [exact Hrun|].
  unfold mbind, Py_bind. rewrite Hr. split; [reflexivity|].
  now rewrite Hcmd.
Qed.

(** X11: the [cmd] of a runner made by a [CommandLineGrabber] is not
    fixed when the runner is made: it reads the command stored on the
    grabber, so once the same grabber has made another runner, the
    first runner reports the command of the second. *)
Theorem grabber_runner_cmd_follows_latest (self : Executor)
    (classpath1 classpath2 : list string) (main1 main2 : string)
    (jvm_options1 jvm_options2 args1 args2 : list string) (w : World) :
  class_ self = CommandLineGrabber ->
  fst ((r1 ← _runner os self classpath1 main1 jvm_options1 args1;
        r2 ← _runner os self classpath2 main2 jvm_options2 args2;
        Runner.cmd r1) w)
  = Return (PyStr.join " " (_create_command os self classpath2 main2 jvm_options2 args2)).
Proof.
  intros Hclass.
  destruct (grabber_runner self classpath1 main1 jvm_options1 args1 w Hclass)
    as (r1 & Hr1 & _ & _ & Hcmd1).
  unfold mbind at 1, Py_bind at 1. rewrite Hr1.
  destruct (grabber_runner self classpath2 main2 jvm_options2 args2
              (set_command
                 (Some (_create_command os self classpath1 main1 jvm_options1 args1)) w)
              Hclass) as (r2 & Hr2 & _).
  unfold mbind, Py_bind. rewrite Hr2, Hcmd1. reflexivity.
Qed.

(** X12: making a runner with a [SubprocessExecutor] changes nothing
    in the world, and the [cmd] of the runner is fixed when it is made:
    it is its own command joined with spaces whatever runners the
    executor makes afterwards. *)
Theorem subprocess_runner_cmd_is_fixed (self : Executor)
    (classpath1 classpath2 : list string) (main1 main2 : string)
    (jvm_options1 jvm_options2 args1 args2 : list string) (w : World) :
  class_ self = SubprocessExecutor ->
  (r1 ← _runner os self classpath1 main1 jvm_options1 args1;
   r2 ← _runner os self classpath2 main2 jvm_options2 args2;
   Runner.cmd r1) w
  = (Return (PyStr.join " " (_create_command os self classpath1 main1 jvm_options1 args1)),
     w).
Proof.
  intros Hclass.
  destruct (subprocess_runner self classpath1 main1 jvm_options1 args1 w Hclass)
    as (r1 & Hr1 & _ & Hcmd1 & _).
  destruct (subprocess_runner self classpath2 main2 jvm_options2 args2 w Hclass)
    as (r2 & Hr2 & _).
  unfold mbind, Py_bind. now rewrite Hr1, Hr2, Hcmd1.
Qed.

End Runners.

Lemma run_again_spawns_again_witness :
  class_ Sample.subprocess = SubprocessExecutor
  /\ refuses Sample.posix
       {| p_args := _create_command Sample.posix Sample.subprocess Sample.two_jars
                      "com.Main" [] ["x"];
          p_environ := spawn_environ Sample.subprocess Sample.no_kwargs Sample.world |}
       (files Sample.world) = None
  /\ (r ← _runner Sample.posix Sample.subprocess Sample.two_jars "com.Main" [] ["x"];
      _ ← Runner.run r None None; Runner.run r None None) Sample.world
     = (r ← _runner Sample.posix Sample.subprocess Sample.two_jars "com.Main" [] ["x"];
        Runner.run r None None)
         (snd ((r ← _runner Sample.posix Sample.subprocess Sample.two_jars "com.Main" []
                      ["x"];
                Runner.run r None None) Sample.world)).
Proof.
  split; [reflexivity|]. split; [reflexivity|].
  exact (proj1 (run_again_spawns_again Sample.posix Sample.subprocess Sample.two_jars
                  "com.Main" [] ["x"] None None Sample.world eq_refl eq_refl)).
Defined.

Lemma grabber_runner_records_command_witness :
  class_ Sample.grabber = CommandLineGrabber
  /\ (r ← _runner Sample.posix Sample.grabber Sample.two_jars "com.Main" [] ["x"];
      CommandLineGrabber_cmd) Sample.world
     = (Return (Some ["/usr/bin/java"; "-cp"; "a/b.jar:c/d.jar:e/classes"; "com.Main"; "x"]),
        set_command
          (Some ["/usr/bin/java"; "-cp"; "a/b.jar:c/d.jar:e/classes"; "com.Main"; "x"])
          Sample.world).
Proof.
  split; [reflexivity|].
  destruct (grabber_runner_records_command Sample.posix Sample.grabber Sample.two_jars
              "com.Main" [] ["x"] Sample.world eq_refl) as (r & _ & _ & _ & Hcmd & _).
  exact Hcmd.
Defined.

Lemma grabber_runner_cmd_follows_latest_witness :
  class_ Sample.grabber = CommandLineGrabber
  /\ fst ((r1 ← _runner Sample.posix Sample.grabber Sample.two_jars "com.Main" [] ["x"];
           r2 ← _runner Sample.posix Sample.grabber Sample.only_directories "org.Other" []
                  [];
           Runner.cmd r1) Sample.world)
     = Return "/usr/bin/java -cp e/classes org.Other".
Proof.
  split; [reflexivity|].
  exact (grabber_runner_cmd_follows_latest Sample.posix Sample.grabber Sample.two_jars
           Sample.only_directories "com.Main" "org.Other" [] [] ["x"] [] Sample.world
           eq_refl).
Defined.

Lemma subprocess_runner_cmd_is_fixed_witness :
  class_ Sample.subprocess = SubprocessExecutor
  /\ (r1 ← _runner Sample.posix Sample.subprocess Sample.two_jars "com.Main" [] ["x"];
      r2 ← _runner Sample.posix Sample.subprocess Sample.only_directories "org.Other" []
             [];
      Runner.cmd r1) Sample.world
     = (Return "/usr/bin/java -cp a/b.jar:c/d.jar:e/classes com.Main x", Sample.world).
Proof.
  split; [reflexivity|].
  exact (subprocess_runner_cmd_is_fixed Sample.posix Sample.subprocess Sample.two_jars
           Sample.only_directories "com.Main" "org.Other" [] [] ["x"] [] Sample.world
           eq_refl).
Defined.

(** ** Launching inside the scope of runner *)

Section Scope.

Context (os : OS).

(** Inside the scope of [runner], accepted arguments give a runner for
    the carrier path followed by the non-jar entries. *)
Lemma runner_scope (self : Executor) (classpath : list string)
    (main jvm_options args : pyval) (m : string) (j a : list string)
    {A} (block : Runner.t -> Py A) (w : World) :
  _scrub_args (PList (PStr <$> classpath)) main jvm_options args
  = Return (classpath, m, j, a) ->
  with_ (runner os self (PList (PStr <$> classpath)) main jvm_options args) block w
  = let carrier := mkstemp os (files w) in
    let '(r, w') :=
      (r ← _runner os self ([carrier] ++ other_entries classpath) m j a; block r)
        (written carrier (jar_entries classpath) (reserved carrier w)) in
    (r, removed carrier w').
Proof.
  intros Hscrub. unfold runner, with_.
  rewrite minimizer_scope_strings. cbv zeta.
  unfold mbind at 1, Py_bind at 1, lift at 1.
  rewrite (scrub_args_classpath _ (PList (PStr <$> [mkstemp os (files w)]
                                               ++ other_entries classpath))
             _ _ _ _ _ _ _ _ Hscrub (maybe_list_collection _ _ (Collection_list _))).
  reflexivity.
Qed.

(** X13: entering the scope of [runner] of a [SubprocessExecutor] with
    accepted arguments and running the runner inside it starts the child
    while the carrier archive exists: the child is given the command
    whose classpath is the carrier path followed by the non-jar entries,
    it meets a file system in which the carrier path holds the manifest
    listing the jar entries, and the carrier is deleted only after the
    child has been waited for, or after the refusal. *)
Theorem launch_inside_scope (self : Executor) (classpath : list string)
    (main jvm_options args : pyval) (m : string) (j a : list string)
    (stdout stderr : option string) (w : World) :
  class_ self = SubprocessExecutor ->
  _scrub_args (PList (PStr <$> classpath)) main jvm_options args
  = Return (classpath, m, j, a) ->
  let carrier := mkstemp os (files w) in
  let inside := written carrier (jar_entries classpath) (reserved carrier w) in
  let cmd := [java self] ++ j
             ++ ["-cp"; PyStr.join (pathsep os) ([carrier] ++ other_entries classpath); m]
             ++ a in
  let kwargs := {| stdout := stdout; stderr := stderr; env := None |} in
  let p := {| p_args := cmd; p_environ := spawn_environ self kwargs w |} in
  files inside !! carrier
  = Some (Jar [(Manifest.PATH, carrier_manifest (jar_entries classpath))])
  /\ with_ (runner os self (PList (PStr <$> classpath)) main jvm_options args)
       (fun r => Runner.run r stdout stderr) w
     = match refuses os p (files inside) with
       | Some d =>
           (Raise (ExecutorError (launch_error self d)),
            removed carrier (extend inside (spawn_log self cmd w ++ [SpawnRefused p d])))
       | None =>
           (Return (fst (child os p (files inside))),
            removed carrier
              (set_files (snd (child os p (files inside)))
                 (extend inside ((spawn_log self cmd w ++ [Spawned p])
                                 ++ [Waited p (fst (child os p (files inside)))]))))
       end.
Proof.
  intros Hclass Hscrub carrier inside cmd kwargs p.
  split; [apply written_present|].
  rewrite (runner_scope self classpath main jvm_options args m j a _ w Hscrub).
  cbv zeta. fold carrier. fold inside.
  rewrite (run_outcome os self _ m j a stdout stderr inside Hclass).
  replace (_create_command os self ([carrier] ++ other_entries classpath) m j a)
    with cmd by (unfold _create_command, cmd; now rewrite <- !app_assoc).
  fold kwargs.
  change (spawn_environ self kwargs inside) with (spawn_environ self kwargs w).
  change (spawn_log self cmd inside) with (spawn_log self cmd w).
  fold p. now destruct (refuses os p (files inside)).
Qed.

(** X14: entering the scope of [runner] of a [CommandLineGrabber] with
    accepted arguments and running the runner inside it returns 0 and
    starts nothing: the only interactions are the creation, writing and
    deletion of the carrier archive.  Afterwards the grabber holds the
    command whose classpath is the carrier path followed by the non-jar
    entries, and that carrier path no longer exists. *)
Theorem grabber_scope_keeps_command (self : Executor) (classpath : list string)
    (main jvm_options args : pyval) (m : string) (j a : list string)
    (stdout stderr : option string) (w : World) :
  class_ self = CommandLineGrabber ->
  _scrub_args (PList (PStr <$> classpath)) main jvm_options args
  = Return (classpath, m, j, a) ->
  let carrier := mkstemp os (files w) in
  let cmd := [java self] ++ j
             ++ ["-cp"; PyStr.join (pathsep os) ([carrier] ++ other_entries classpath); m]
             ++ a in
  let scope := with_ (runner os self (PList (PStr <$> classpath)) main jvm_options args)
                 (fun r => Runner.run r stdout stderr) w in
  fst scope = Return 0%Z
  /\ CommandLineGrabber_cmd (snd scope) = (Return (Some cmd), snd scope)
  /\ occurs_in carrier (PyStr.join (pathsep os) ([carrier] ++ other_entries classpath))
  /\ files (snd scope) !! carrier = None
  /\ environ (snd scope) = environ w
  /\ trace (snd scope)
     = trace w ++ [ MkTemp carrier;
                    WriteJar carrier
                      [(Manifest.PATH, carrier_manifest (jar_entries classpath))];
                    Unlink carrier ].
Proof.
  intros Hclass Hscrub carrier cmd scope.
  assert (Hscope : scope
    = (Return 0%Z,
       removed carrier
         (set_command (Some cmd)
            (written carrier (jar_entries classpath) (reserved carrier w))))).
  { unfold scope.
    rewrite (runner_scope self classpath main jvm_options args m j a _ w Hscrub).
    cbv zeta. fold carrier. unfold _runner. rewrite Hclass.
    replace (_create_command os self ([carrier] ++ other_entries classpath) m j a)
      with cmd by (unfold _create_command, cmd; now rewrite <- !app_assoc).
    reflexivity. }
  rewrite Hscope.
  split; [reflexivity|]. split; [reflexivity|].
  split; [apply join_occurs; now left|].
  split; [apply removed_gone|]. split; [reflexivity|].
  cbn [snd]. unfold removed, set_command, written, reserved, emit, set_files. cbn [trace].
  now rewrite <- !app_assoc.
Qed.

End Scope.

Lemma launch_inside_scope_witness :
  class_ Sample.subprocess = SubprocessExecutor
  /\ _scrub_args (PList (PStr <$> Sample.two_jars)) (PStr "com.Main") PNone (PStr "x")
     = Return (Sample.two_jars, "com.Main", [], ["x"])
  /\ fst (with_ (runner Sample.posix Sample.subprocess (PList (PStr <$> Sample.two_jars))
                   (PStr "com.Main") PNone (PStr "x"))
            (fun r => Runner.run r None None) Sample.world)
     = Return 0%Z.
Proof.
  split; [reflexivity|]. split; [reflexivity|].
  exact (f_equal fst
           (proj2 (launch_inside_scope Sample.posix Sample.subprocess Sample.two_jars
                     (PStr "com.Main") PNone (PStr "x") "com.Main" [] ["x"] None None
                     Sample.world eq_refl eq_refl))).
Defined.

Lemma grabber_scope_keeps_command_witness :
  class_ Sample.grabber = CommandLineGrabber
  /\ _scrub_args (PList (PStr <$> Sample.two_jars)) (PStr "com.Main") PNone (PStr "x")
     = Return (Sample.two_jars, "com.Main", [], ["x"])
  /\ fst (CommandLineGrabber_cmd
            (snd (with_ (runner Sample.posix Sample.grabber
                           (PList (PStr <$> Sample.two_jars)) (PStr "com.Main") PNone
                           (PStr "x"))
                    (fun r => Runner.run r None None) Sample.world)))
     = Return (Some ["/usr/bin/java"; "-cp"; "/tmp/tmp:e/classes"; "com.Main"; "x"]).
Proof.
  split; [reflexivity|]. split; [reflexivity|].
  exact (f_equal fst
           (proj1 (proj2 (grabber_scope_keeps_command Sample.posix Sample.grabber
                            Sample.two_jars (PStr "com.Main") PNone (PStr "x")
                            "com.Main" [] ["x"] None None Sample.world
                            eq_refl eq_refl)))).
Defined.

(** ** Constructing executors *)

Section Constructors.

Context (validate : Distribution.t -> Py unit) (cached : Py Distribution.t).

(** X15: an executor launches the java binary of the distribution it
    was constructed with: a distribution that validates, or the cached
    distribution when the argument is [None] or any other value that is
    false in a boolean context.  A [CommandLineGrabber] starts with no
    command, a [SubprocessExecutor] keeps the given scrubbing flag, and
    the command a fresh grabber then captures begins with that java
    binary. *)
Theorem constructed_executor_uses_distribution (os : OS) (distribution : InitArg)
    (d : Distribution.t) (scrub_classpath : bool) (classpath : list string)
    (main : string) (jvm_options args : list string) (w w1 : World) :
  (distribution = IsDistribution d /\ validate d w = (Return tt, w1))
  \/ (exists v, distribution = NotDistribution v /\ truthy v = false
                /\ cached w = (Return d, w1)) ->
  CommandLineGrabber_init validate cached distribution w
  = (Return {| class_ := CommandLineGrabber; java := Distribution.java d;
               _scrub_classpath := false |},
     set_command None w1)
  /\ SubprocessExecutor_init validate cached distribution scrub_classpath w
     = (Return {| class_ := SubprocessExecutor; java := Distribution.java d;
                  _scrub_classpath := scrub_classpath |},
        w1)
  /\ fst ((self ← CommandLineGrabber_init validate cached distribution;
           CommandLineGrabber_cmd) w) = Return None
  /\ fst ((self ← CommandLineGrabber_init validate cached distribution;
           r ← _runner os self classpath main jvm_options args;
           CommandLineGrabber_cmd) w)
     = Return (Some ([Distribution.java d] ++ jvm_options
                     ++ ["-cp"; PyStr.join (pathsep os) classpath; main] ++ args)).
Proof.
  intros Hchosen.
  assert (Hinit : forall cls scrub,
    Executor_init validate cached cls scrub distribution w
    = (Return {| class_ := cls; java := Distribution.java d; _scrub_classpath := scrub |},
       w1)).
  { intros cls scrub. unfold Executor_init, mbind, Py_bind.
    destruct Hchosen as [[-> Hvalid]|(v & -> & Hfalse & Hcached)]; simpl.
    - now rewrite Hvalid.
    - now rewrite Hfalse, Hcached. }
  assert (Hgrabber : CommandLineGrabber_init validate cached distribution w
    = (Return {| class_ := CommandLineGrabber; java := Distribution.java d;
                 _scrub_classpath := false |},
       set_command None w1)).
  { unfold CommandLineGrabber_init, mbind, Py_bind. now rewrite Hinit. }
  split; [exact Hgrabber|]. split; [apply Hinit|].
  unfold mbind at 1, Py_bind at 1. rewrite Hgrabber. split; [reflexivity|].
  unfold mbind at 1, Py_bind at 1. rewrite Hgrabber.
  unfold _runner, _create_command, CommandLineGrabber_cmd. simpl.
  now rewrite <- !app_assoc.
Qed.


End Constructors.

Lemma constructed_executor_uses_distribution_witness :
  ((IsDistribution Fixture.jdk = IsDistribution Fixture.jdk
    /\ Fixture.validate_ok Fixture.jdk Sample.world = (Return tt, Sample.world))
   \/ (exists v, IsDistribution Fixture.jdk = NotDistribution v /\ truthy v = false
                 /\ Fixture.cached_default Sample.world = (Return Fixture.jdk, Sample.world)))
  /\ fst ((self ← CommandLineGrabber_init Fixture.validate_ok Fixture.cached_default
                    (IsDistribution Fixture.jdk);
           r ← _runner Sample.posix self Sample.two_jars "com.Main" [] ["x"];
           CommandLineGrabber_cmd) Sample.world)
     = Return (Some ["/opt/jdk/bin/java"; "-cp"; "a/b.jar:c/d.jar:e/classes"; "com.Main";
                     "x"]).
Proof.
  split; [left; split; reflexivity|].
  exact (proj2 (proj2 (proj2 (constructed_executor_uses_distribution
                                Fixture.validate_ok Fixture.cached_default Sample.posix
                                (IsDistribution Fixture.jdk) Fixture.jdk true
                                Sample.two_jars "com.Main" [] ["x"] Sample.world
                                Sample.world (or_introl (conj eq_refl eq_refl)))))).
Defined.

